(** * pyinfra_cli.inventory: resolution of an inventory descriptor

    A shallow embedding of [src/pyinfra_cli/inventory.py] and the proofs of
    the properties stated about it.  Python values are an inductive type,
    dictionaries are association lists in insertion order, logging and the
    calls to the outside world are recorded in an event log, and exceptions
    are results of the computation. *)

From Stdlib Require Import ZArith Ascii String.
From stdpp Require Import base option list strings.

#[local] Set Warnings "-register-all,-clear-no-such-hyp".
Open Scope string_scope.
Open Scope list_scope.

(** ** Python strings *)

Module Str.

(** [s.startswith(p)] *)
Fixpoint startswith (p s : string) : bool :=
  match p, s with
  | EmptyString, _ => true
  | String _ _, EmptyString => false
  | String a p', String b s' => Ascii.eqb a b && startswith p' s'
  end.

(** [s.endswith(p)] *)
Definition endswith (p s : string) : bool :=
  startswith (String.rev p) (String.rev s).

(** [sub in s], for two strings *)
Fixpoint contains (sub s : string) : bool :=
  startswith sub s ||
  match s with
  | EmptyString => false
  | String _ rest => contains sub rest
  end.

(** [s.split(sep)] for a separator of one character: every occurrence
    splits, and empty fields are kept. *)
Fixpoint split (sep : ascii) (s : string) : list string :=
  match s with
  | EmptyString => [EmptyString]
  | String c rest =>
      if Ascii.eqb c sep then EmptyString :: split sep rest
      else match split sep rest with
           | [] => [String c EmptyString]
           | field :: fields => String c field :: fields
           end
  end.

(** [sep.join(fields)] for a separator of one character *)
Fixpoint join (sep : ascii) (fields : list string) : string :=
  match fields with
  | [] => EmptyString
  | [f] => f
  | f :: rest => f +:+ String sep (join sep rest)
  end.

(** [s.rsplit(sep, 1)[0]]: the part of [s] before the last [sep], all of
    [s] when [sep] does not occur. *)
Definition rsplit1_head (sep : ascii) (s : string) : string :=
  match split sep s with
  | [] | [_] => s
  | fields => join sep (removelast fields)
  end.

(** the part of [s] after the last [sep], all of [s] when [sep] does not
    occur *)
Definition after_last (sep : ascii) (s : string) : string :=
  List.last (split sep s) EmptyString.

(** [s[:-n]] *)
Definition drop_last (n : nat) (s : string) : string :=
  String.substring 0 (String.length s - n) s.

(** the characters of [s], each as a string of length one: what
    iterating over a Python string yields *)
Fixpoint chars (s : string) : list string :=
  match s with
  | EmptyString => []
  | String c rest => String c EmptyString :: chars rest
  end.

End Str.

(** ** os.path (posixpath) *)

Module Path.

Definition slash : ascii := "/"%char.

(** [posixpath.basename] *)
Definition basename (p : string) : string := Str.after_last slash p.

Fixpoint all_slashes (s : string) : bool :=
  match s with
  | EmptyString => true
  | String c rest => Ascii.eqb c slash && all_slashes rest
  end.

Fixpoint lstrip_slashes (s : string) : string :=
  match s with
  | String c rest => if Ascii.eqb c slash then lstrip_slashes rest else s
  | EmptyString => s
  end.

Definition rstrip_slashes (s : string) : string :=
  String.rev (lstrip_slashes (String.rev s)).

(** [posixpath.dirname]: the head up to and including the last slash, its
    trailing slashes removed unless it consists of slashes only. *)
Definition dirname (p : string) : string :=
  let head := Str.drop_last (String.length (basename p)) p in
  if all_slashes head then head else rstrip_slashes head.

(** [posixpath.join(a, b)] *)
Definition join (a b : string) : string :=
  if Str.startswith "/" b then b
  else if String.eqb a "" || Str.endswith "/" a then a +:+ b
  else a +:+ "/" +:+ b.

End Path.

(** ** Python values *)

(** The values that reach the inventory code: [None], integers, strings,
    lists, tuples, dictionaries with string keys (in insertion order) and
    opaque objects (functions, modules, classes), which are not iterable and
    equal only to themselves.

    A dictionary is the one object the inventory code updates in place
    after it received it from a user file. [VDict (Some i) items] is a
    reference to the dictionary object [i]: two occurrences with the same
    [i] are the same object and an update through one is seen through the
    other. [VDict None items] is a dictionary with a single reference (the
    ones the inventory code creates itself). *)
Inductive value : Type :=
| VNone
| VInt (n : Z)
| VStr (s : string)
| VList (items : list value)
| VTuple (items : list value)
| VDict (obj : option nat) (items : list (string * value))
| VObj (obj : nat).

Abbreviation dict := (list (string * value)) (only parsing).

(** *** Dictionaries, as the insertion-ordered mappings of Python *)

Section Dict.
Context {V : Type}.

(** [d.get(k)] *)
Fixpoint dict_get (k : string) (d : list (string * V)) : option V :=
  match d with
  | [] => None
  | (k', v) :: rest => if String.eqb k k' then Some v else dict_get k rest
  end.

(** [k in d] *)
Definition dict_mem (k : string) (d : list (string * V)) : bool :=
  match dict_get k d with Some _ => true | None => false end.

(** [d[k] = v]: an existing key keeps its place, a new key goes last. *)
Fixpoint dict_set (k : string) (v : V) (d : list (string * V))
  : list (string * V) :=
  match d with
  | [] => [(k, v)]
  | (k', v') :: rest =>
      if String.eqb k k' then (k', v) :: rest
      else (k', v') :: dict_set k v rest
  end.

(** [del d[k]], the mapping left by [d.pop(k)] *)
Fixpoint dict_remove (k : string) (d : list (string * V))
  : list (string * V) :=
  match d with
  | [] => []
  | (k', v') :: rest =>
      if String.eqb k k' then rest else (k', v') :: dict_remove k rest
  end.

(** [d.update(other)] *)
Definition dict_update (d other : list (string * V)) : list (string * V) :=
  fold_left (fun acc kv => dict_set (fst kv) (snd kv) acc) other d.

Definition dict_keys (d : list (string * V)) : list string := map fst d.

End Dict.

(** *** Equality and iteration *)

(** [a == b] *)
Fixpoint py_eq (a b : value) {struct a} : bool :=
  let fix list_eq (xs ys : list value) {struct xs} : bool :=
    match xs, ys with
    | [], [] => true
    | x :: xs', y :: ys' => py_eq x y && list_eq xs' ys'
    | _, _ => false
    end in
  let fix items_in (d1 d2 : list (string * value)) {struct d1} : bool :=
    match d1 with
    | [] => true
    | (k, v) :: rest =>
        match dict_get k d2 with
        | Some v' => py_eq v v'
        | None => false
        end && items_in rest d2
    end in
  match a, b with
  | VNone, VNone => true
  | VInt x, VInt y => Z.eqb x y
  | VStr x, VStr y => String.eqb x y
  | VList xs, VList ys => list_eq xs ys
  | VTuple xs, VTuple ys => list_eq xs ys
  | VDict _ d1, VDict _ d2 =>
      Nat.eqb (length d1) (length d2) && items_in d1 d2
  | VObj i, VObj j => Nat.eqb i j
  | _, _ => false
  end.

(** [x in xs] for a list or a tuple [xs] *)
Definition py_in_list (x : value) (xs : list value) : bool :=
  existsb (py_eq x) xs.

(** [isinstance(v, str)], [isinstance(v, tuple)], [isinstance(v, dict)] *)
Definition is_str (v : value) : bool :=
  match v with VStr _ => true | _ => false end.
Definition is_tuple (v : value) : bool :=
  match v with VTuple _ => true | _ => false end.
Definition is_dict (v : value) : bool :=
  match v with VDict _ _ => true | _ => false end.

(** An in-place update of the dictionary object [i]: every reference to
    it, anywhere in [v], now holds [new]. *)
Fixpoint dict_object_store (i : nat) (new : dict) (v : value) : value :=
  match v with
  | VList xs => VList (map (dict_object_store i new) xs)
  | VTuple xs => VTuple (map (dict_object_store i new) xs)
  | VDict (Some j) items =>
      if Nat.eqb i j then VDict (Some j) new
      else VDict (Some j)
             (map (fun kv => (fst kv, dict_object_store i new (snd kv))) items)
  | VDict None items =>
      VDict None
        (map (fun kv => (fst kv, dict_object_store i new (snd kv))) items)
  | _ => v
  end.

(** ** Exceptions, log and the computation monad *)

(** A formatted message: the literal text of an f-string or a logging
    format, and the values interpolated into it. *)
Inductive fragment : Type :=
| FText (s : string)
| FValue (v : value).

Definition message : Type := list fragment.

Inductive exn_class : Type :=
| CliError | TypeError | ValueError | IndexError | AttributeError
| OtherError (name : string).

Record exn : Type := Exn { exn_cls : exn_class; exn_msg : message }.

Inductive event : Type :=
| LogDebug (m : message)
| LogWarning (m : message)
| TryImport (name : string)
| Getaddrinfo (host : string)
| ExecFile (path : string).

Inductive result (A : Type) : Type :=
| Ok (a : A)
| Raised (e : exn).
Arguments Ok {A} a.
Arguments Raised {A} e.

(** A computation: the events it produced, in order, and how it ended. *)
Definition M (A : Type) : Type := (list event * result A)%type.

Definition ret {A} (a : A) : M A := ([], Ok a).
Definition raise {A} (e : exn) : M A := ([], Raised e).
Definition emit (ev : event) : M unit := ([ev], Ok tt).

Definition bind {A B} (m : M A) (k : A -> M B) : M B :=
  match m with
  | (l1, Ok a) => let '(l2, r) := k a in (l1 ++ l2, r)
  | (l1, Raised e) => (l1, Raised e)
  end.

(** The notations [x ← m; k] and [m;; k] of stdpp sequence computations. *)
Global Instance M_ret : MRet M := @ret.
Global Instance M_bind : MBind M := fun A B k m => bind m k.

(** [for x in xs: s = body(s, x)], stopping at the first exception *)
Fixpoint for_each {A S} (xs : list A) (s : S) (body : S -> A -> M S) : M S :=
  match xs with
  | [] => ret s
  | x :: rest => s' ← body s x; for_each rest s' body
  end.

Definition events {A} (m : M A) : list event := fst m.
Definition outcome {A} (m : M A) : result A := snd m.

Definition logger_debug (m : message) : M unit := emit (LogDebug m).
Definition logger_warning (m : message) : M unit := emit (LogWarning m).

(** [for item in v]: the items a value yields when iterated, [TypeError]
    when it is not iterable (the message of Python names the type of the
    value; the value stands for it here). *)
Definition py_iter (v : value) : M (list value) :=
  match v with
  | VList xs | VTuple xs => ret xs
  | VStr s => ret (map VStr (Str.chars s))
  | VDict _ d => ret (map VStr (dict_keys d))
  | _ => raise (Exn TypeError [FValue v; FText " object is not iterable"])
  end.

(** [a, b = xs] for a tuple [xs]: [ValueError] unless it has two items. *)
Definition unpack2 (xs : list value) : M (value * value) :=
  match xs with
  | [a; b] => ret (a, b)
  | _ => raise (Exn ValueError
                  [FText "wrong number of values to unpack (expected 2)"])
  end.

(** [x in container] *)
Definition py_contains (x container : value) : M bool :=
  match container with
  | VList xs | VTuple xs => ret (py_in_list x xs)
  | VDict _ d =>
      ret (match x with VStr k => dict_mem k d | _ => false end)
  | VStr s =>
      match x with
      | VStr sub => ret (Str.contains sub s)
      | _ => raise (Exn TypeError
                      [FText "'in <string>' requires string as left operand"])
      end
  | _ => raise (Exn TypeError
                  [FText "argument of type "; FValue container;
                   FText " is not iterable"])
  end.

(** [xs[0]] for a tuple [xs] *)
Definition tuple_first (xs : list value) : M value :=
  match xs with
  | x :: _ => ret x
  | [] => raise (Exn IndexError [FText "tuple index out of range"])
  end.

(** ** The collaborators of the module *)

(** Modelled from the spec: [pyinfra.api.inventory.Inventory] is not part of
    the sources at hand. Following section 6 of the specification
    (construction signature [(allHosts, allData), **groups], plus
    [override_data]), an inventory is the record of what it was built from:
    the [(hosts, data)] pair of the [all] group, the override data, and the
    named groups as given. *)
Record Inventory : Type := Inventory_init {
  names_data : value;
  override_data_of : option dict;
  groups_of : dict;
}.

(** Modelled from the spec: [Inventory.empty()], the inventory with no host
    and no group. *)
Definition Inventory_empty : Inventory :=
  Inventory_init (VTuple [VList []; VDict None []]) None [].

(** [Inventory(names_data, override_data=override_data, **groups)]: Python
    itself rejects the call when the expanded mapping repeats the keyword
    that the call spells out. *)
Definition Inventory_call (names_data : value) (override_data : option dict)
    (groups : dict) : M Inventory :=
  if dict_mem "override_data" groups then
    raise (Exn TypeError
             [FText "got multiple values for keyword argument override_data"])
  else ret (Inventory_init names_data override_data groups).

(** A callable without arguments, found by an import: its [__name__] and
    what calling it does. *)
Record py_function : Type := {
  fn_name : string;
  fn_call : result value;
}.

(** The filesystem, the interpreter services and the network, as the module
    sees them. *)
Record world : Type := {
  (** [os.path.exists], [os.path.isfile], [os.listdir], [os.path.abspath] *)
  path_exists : string -> bool;
  path_isfile : string -> bool;
  listdir : string -> list string;
  abspath : string -> string;
  (** [pyinfra_cli.util.exec_file(file, return_locals=True)]: the top-level
      bindings of the file, in order of definition, or the exception its
      execution raised. The file may consult the inventory of the ambient
      context [ctx_inventory]. *)
  exec_file : option Inventory -> string -> result dict;
  (** [pyinfra_cli.util.try_import_module_attribute(name,
      raise_for_none=False)] *)
  try_import_module_attribute : string -> option py_function;
  (** [socket.getaddrinfo(host, port=None)]: [false] stands for
      [socket.gaierror]. *)
  getaddrinfo : string -> bool;
  (** [get_ssh_config()], and [lookup] of the configuration it returns *)
  get_ssh_config : option (string -> list (string * string));
  (** the order in which a set iterates over the strings that were added to
      it (given here in order of insertion, without repetition) *)
  set_order : list string -> list string;
}.

(** ** The module *)

(** [ALLOWED_HOST_TYPES = (str, tuple)], as the test
    [isinstance(item, ALLOWED_HOST_TYPES)] *)
Definition ALLOWED_HOST_TYPES (item : value) : bool :=
  is_str item || is_tuple item.

(** The messages are those of the source, without their quotation marks. *)
Definition msg_leading_underscore (key : string) : message :=
  [FText "Ignoring variable "; FValue (VStr key);
   FText " in inventory file since it starts with a leading underscore"].
Definition msg_not_list_or_tuple (key : string) : message :=
  [FText "Ignoring variable "; FValue (VStr key);
   FText " in inventory file since it is not a list or tuple"].
Definition msg_bad_host_group (key : string) : message :=
  [FText "Ignoring host group "; FValue (VStr key);
   FText ". Host groups may only contain strings (host) or tuples (host, data)."].

Definition _is_inventory_group (key : string) (value : value) : M bool :=
  if Str.startswith "__" key then ret false
  else if Str.startswith "_" key then
    logger_debug (msg_leading_underscore key);; ret false
  else
    let check_items value : M bool :=
      items ← py_iter value;
      if forallb ALLOWED_HOST_TYPES items then ret true
      else logger_warning (msg_bad_host_group key);; ret false in
    match value with
    | VList _ => check_items value
    | VTuple xs => first ← tuple_first xs; check_items first
    | _ => logger_debug (msg_not_list_or_tuple key);; ret false
    end.

Definition _get_any_tuple_first (item : value) : M value :=
  match item with
  | VTuple xs => tuple_first xs
  | _ => ret item
  end.

(** [{key: value for key, value in items if keep(key, value)}] *)
Definition dict_comprehension (keep : string -> value -> M bool)
    (items : dict) : M dict :=
  for_each items [] (fun kept item =>
    b ← keep (fst item) (snd item);
    ret (if b : bool then dict_set (fst item) (snd item) kept else kept)).

Section Loader.
Variable w : world.

Definition call_exec_file (ctx : option Inventory) (file : string)
  : M dict :=
  emit (ExecFile file);;
  match exec_file w ctx file with
  | Ok attrs => ret attrs
  | Raised e => raise e
  end.

Definition _get_group_data (ctx : option Inventory)
    (dirname_or_filename : string) : M (list (string * dict)) :=
  logger_debug [FText "Checking possible group_data at: ";
                FValue (VStr dirname_or_filename)];;
  if path_exists w dirname_or_filename then
    let files :=
      if path_isfile w dirname_or_filename then [dirname_or_filename]
      else map (Path.join dirname_or_filename)
             (listdir w dirname_or_filename) in
    for_each files [] (fun group_data file =>
      if negb (Str.endswith ".py" file) then ret group_data
      else
        let group_name := Str.drop_last 3 (Path.basename file) in
        logger_debug [FText "Looking for group data in: ";
                      FValue (VStr file)];;
        attrs ← call_exec_file ctx file;
        let keys :=
          match dict_get "__all__" attrs with
          | Some exported => exported
          | None => VList (map VStr (dict_keys attrs))
          end in
        data ← dict_comprehension
                 (fun (key : string) (_ : value) =>
                    listed ← py_contains (VStr key) keys;
                    ret (listed && negb (Str.startswith "__" key)))
                 attrs;
        ret (dict_set group_name data group_data))
  else ret [].

Definition _get_groups_from_filename (inventory_filename : string)
  : M dict :=
  attrs ← call_exec_file None inventory_filename;
  dict_comprehension _is_inventory_group attrs.

End Loader.

Section Hostnames.
Variable w : world.

Definition call_getaddrinfo (host : string) : M bool :=
  emit (Getaddrinfo host);; ret (getaddrinfo w host).

Definition _get_ssh_alias (maybe_host : string) : M (option string) :=
  logger_debug [FText "Checking if "; FValue (VStr maybe_host);
                FText " is an SSH alias"];;
  match get_ssh_config w with
  | None => logger_debug [FText "Could not load SSH config"];; ret None
  | Some lookup =>
      let options := lookup maybe_host in
      match dict_get "hostname" options with
      | None => ret None
      | Some alias =>
          if String.eqb maybe_host alias then ret None else ret (Some alias)
      end
  end.

Definition _resolves_to_host (maybe_host : string) : M bool :=
  resolved ← call_getaddrinfo maybe_host;
  if resolved : bool then ret true
  else
    alias ← _get_ssh_alias maybe_host;
    match alias with
    | None | Some "" => ret false
    | Some alias => call_getaddrinfo alias
    end.

End Hostnames.

(** *** make_inventory_from_func *)

Definition msg_failed_to_load (name : string) (cause : message) : message :=
  [FText "Failed to load inventory function: "; FText name; FText ": "]
  ++ cause.
Definition msg_not_a_dictionary (name : string) : message :=
  [FText "Inventory function "; FText name;
   FText " did not return a dictionary"].
Definition msg_non_dictionary_data (name key : string) : message :=
  [FText "Inventory function "; FText name;
   FText " group contains non-dictionary data: "; FValue (VStr key)].
Definition msg_invalid_host (name : string) (host : value) : message :=
  [FText "Inventory function "; FText name; FText " invalid host: ";
   FValue host].
Definition msg_invalid_host_name (name : string) (host : value) : message :=
  [FText "Inventory function "; FText name; FText " invalid host name: ";
   FValue host].

(** [combined_host_list.add(host)], the set given by its members in order
    of insertion *)
Definition set_add (host : string) (s : list string) : list string :=
  if existsb (String.eqb host) s then s else s ++ [host].

(** Lines 214-227: the loop over the hosts of one group. *)
Definition check_hosts (name : string) (hosts : list value)
    (combined_host_list : list string) : M (list string) :=
  for_each hosts combined_host_list (fun combined host =>
    if negb (ALLOWED_HOST_TYPES host) then
      raise (Exn TypeError (msg_invalid_host name host))
    else
      host ← _get_any_tuple_first host;
      match host with
      | VStr hostname => ret (set_add hostname combined)
      | _ => raise (Exn TypeError (msg_invalid_host_name name host))
      end).

(** Lines 202-229: one turn of the loop over the groups that the function
    returned; [combined_host_list] and [groups_with_data] are its state. *)
Definition check_group (name : string) (state : list string * dict)
    (item : string * value) : M (list string * dict) :=
  let '(combined_host_list, groups_with_data) := state in
  let '(key, hosts) := item in
  '(hosts, data) ← match hosts with
                   | VTuple xs => unpack2 xs
                   | _ => ret (hosts, VDict None [])
                   end;
  if negb (is_dict data) then
    raise (Exn TypeError (msg_non_dictionary_data name key))
  else
    items ← py_iter hosts;
    combined_host_list ← check_hosts name items combined_host_list;
    ret (combined_host_list,
         dict_set key (VTuple [hosts; data]) groups_with_data).

Definition make_inventory_from_func (w : world) (inventory_func : py_function)
    (override_data : option dict) : M Inventory :=
  let name := fn_name inventory_func in
  logger_warning [FText "Loading inventory via import function is in alpha!"];;
  groups ← match fn_call inventory_func with
           | Ok groups => ret groups
           | Raised e =>
               raise (Exn CliError (msg_failed_to_load name (exn_msg e)))
           end;
  match groups with
  | VDict _ groups =>
      '(combined_host_list, groups_with_data) ←
        for_each groups ([], []) (check_group name);
      Inventory_call
        (VTuple [VList (map VStr (set_order w combined_host_list));
                 VDict None []])
        override_data groups_with_data
  | _ => raise (Exn TypeError (msg_not_a_dictionary name))
  end.

(** *** make_inventory_from_files

    The function is given step by step, each step a definition of its own,
    so that the state between two steps can be spoken about. *)

(** Lines 275-284: the [all] group built out of the hosts of the groups. *)
Definition synthesize_all_hosts (groups : dict) : M (list value) :=
  for_each groups [] (fun all_hosts group =>
    hosts ← _get_any_tuple_first (snd group);
    hosts ← py_iter hosts;
    for_each hosts all_hosts (fun all_hosts host =>
      hostname ← _get_any_tuple_first host;
      ret (if py_in_list hostname all_hosts then all_hosts
           else all_hosts ++ [hostname]))).

(** Lines 265-286: [all_hosts], [all_data] and the groups once the [all]
    group is written back. *)
Definition resolve_all_group (groups : dict) : M (value * value * dict) :=
  let all_data := VDict None [] in
  '(all_hosts, all_data, groups) ←
    match dict_get "all" groups with
    | Some all_hosts =>
        let groups := dict_remove "all" groups in
        '(all_hosts, all_data) ←
          match all_hosts with
          | VTuple xs => unpack2 xs
          | _ => ret (all_hosts, all_data)
          end;
        ret (all_hosts, all_data, groups)
    | None =>
        all_hosts ← synthesize_all_hosts groups;
        ret (VList all_hosts, all_data, groups)
    end;
  ret (all_hosts, all_data,
       dict_set "all" (VTuple [all_hosts; all_data]) groups).

(** Lines 288-290: the group of the file name. *)
Definition apply_file_groupname (file_groupname : option string)
    (all_hosts : value) (groups : dict) : dict :=
  match file_groupname with
  | Some name =>
      if negb (String.eqb name "") && negb (dict_mem name groups)
      then dict_set name all_hosts groups
      else groups
  | None => groups
  end.

(** Lines 299-304: the provisional inventory of the ambient context. It is
    built without [override_data], so no keyword can be repeated. *)
Definition fake_inventory (all_hosts all_data : value) (groups : dict)
  : Inventory :=
  let fake_groups :=
    map (fun group : string * value =>
           (fst group,
            if is_tuple (snd group) then snd group
            else VTuple [snd group; VDict None []]))
        groups in
  Inventory_init (VTuple [all_hosts; all_data]) None fake_groups.

Section Files.
Variable w : world.

(** Lines 249-263: the groups to start from, and [file_groupname]. *)
Definition initial_groups (inventory_filename : string)
  : M (dict * option string) :=
  if negb (path_exists w inventory_filename) then
    ret ([("all",
           VList (map VStr (Str.split ","%char inventory_filename)))],
         None)
  else
    groups ← _get_groups_from_filename w inventory_filename;
    ret (groups,
         Some (Str.rsplit1_head "."%char
                 (Path.basename inventory_filename))).

(** Lines 306-314. [if cwd:] holds for a string that is not empty. *)
Definition possible_group_data_folders (inventory_filename : string)
    (cwd : option string) (group_data_directories : option (list string))
  : list string :=
  let inventory_dirname := abspath w (Path.dirname inventory_filename) in
  (match cwd with
   | Some dir =>
       if String.eqb dir "" then [] else [Path.join dir "group_data"]
   | None => []
   end)
  ++ (if match cwd with
         | Some dir => negb (String.eqb inventory_dirname dir)
         | None => true
         end
      then [Path.join inventory_dirname "group_data"] else [])
  ++ (match group_data_directories with
      | Some dirs => dirs
      | None => []
      end).

(** Lines 316-322: [group_data] is a [defaultdict(dict)], so that a name
    met for the first time starts from the empty mapping. *)
Definition collect_group_data (ctx : Inventory) (folders : list string)
  : M (list (string * dict)) :=
  for_each folders [] (fun group_data folder =>
    found ← _get_group_data w (Some ctx) folder;
    for_each found group_data (fun group_data item =>
      let '(group_name, data) := item in
      let current := default [] (dict_get group_name group_data) in
      logger_debug [FText "Adding data to group ";
                    FValue (VStr group_name); FText ": ";
                    FValue (VDict None data)];;
      ret (dict_set group_name (dict_update current data) group_data))).

End Files.

(** Lines 324-335: every group becomes [(hosts, data)], and takes the data
    collected under its name. [data.update] changes the dictionary object
    in place: when the object came from the inventory file with other
    references to it, all of them see the change. *)
Definition attach_group_data_step
    (state : dict * list (string * dict)) (name : string)
  : M (dict * list (string * dict)) :=
  let '(groups, group_data) := state in
  match dict_get name groups with
  | None => ret state
  | Some hosts =>
      '(hosts, data) ← match hosts with
                       | VTuple xs => unpack2 xs
                       | _ => ret (hosts, VDict None [])
                       end;
      '(hosts, data, groups, group_data) ←
        match dict_get name group_data with
        | None => ret (hosts, data, groups, group_data)
        | Some collected =>
            let group_data := dict_remove name group_data in
            match data with
            | VDict None items =>
                ret (hosts, VDict None (dict_update items collected),
                     groups, group_data)
            | VDict (Some i) items =>
                let new := dict_update items collected in
                let store := dict_object_store i new in
                ret (store hosts, VDict (Some i) new,
                     map (fun g : string * value => (fst g, store (snd g)))
                         groups,
                     map (fun g : string * dict =>
                            (fst g,
                             map (fun kv : string * value =>
                                    (fst kv, store (snd kv))) (snd g)))
                         group_data)
            | _ =>
                raise (Exn AttributeError
                         [FValue data;
                          FText " object has no attribute update"])
            end
        end;
      ret (dict_set name (VTuple [hosts; data]) groups, group_data)
  end.

Definition attach_group_data (groups : dict)
    (group_data : list (string * dict)) : M (dict * list (string * dict)) :=
  for_each (dict_keys groups) (groups, group_data) attach_group_data_step.

(** Lines 337-341: a group without hosts for each name that is left. *)
Definition add_leftover_groups (groups : dict)
    (group_data : list (string * dict)) : dict :=
  fold_left
    (fun groups item =>
       dict_set (fst item) (VTuple [VList []; VDict None (snd item)]) groups)
    group_data groups.

(** [groups.pop(key)] *)
Definition dict_pop (key : string) (groups : dict) : M (value * dict) :=
  match dict_get key groups with
  | Some v => ret (v, dict_remove key groups)
  | None => raise (Exn (OtherError "KeyError") [FValue (VStr key)])
  end.

Definition make_inventory_from_files (w : world) (inventory_filename : string)
    (override_data : option dict) (cwd : option string)
    (group_data_directories : option (list string)) : M Inventory :=
  '(groups, file_groupname) ← initial_groups w inventory_filename;
  '(all_hosts, all_data, groups) ← resolve_all_group groups;
  let groups := apply_file_groupname file_groupname all_hosts groups in
  logger_debug [FText "Creating fake inventory..."];;
  let fake := fake_inventory all_hosts all_data groups in
  let folders :=
    possible_group_data_folders w inventory_filename cwd
      group_data_directories in
  group_data ← collect_group_data w fake folders;
  '(groups, group_data) ← attach_group_data groups group_data;
  let groups := add_leftover_groups groups group_data in
  '(all, groups) ← dict_pop "all" groups;
  Inventory_call all override_data groups.

(** *** make_inventory *)

Definition call_try_import (w : world) (name : string)
  : M (option py_function) :=
  emit (TryImport name);; ret (try_import_module_attribute w name).

Definition msg_unrecognised (inventory : string) : message :=
  [FText inventory;
   FText " is neither an inventory file, a (list of) hosts or connectors nor refers to a python module"].

(** Line 153-159: the first classification of the descriptor. *)
Definition is_path_or_host_list_or_connector (w : world) (inventory : string)
    (override_data : option dict) : bool :=
  path_exists w inventory
  || Str.contains "," inventory
  || Str.contains "@" inventory
  || match override_data with
     | Some data => dict_mem "ssh_hostname" data
     | None => false
     end.

Definition make_inventory (w : world) (inventory : string)
    (override_data : option dict) (cwd : option string)
    (group_data_directories : option (list string)) : M Inventory :=
  '(is_files, inventory_func) ←
    (if negb (is_path_or_host_list_or_connector w inventory override_data)
     then
       inventory_func ← call_try_import w inventory;
       match inventory_func with
       | None =>
           resolves ← _resolves_to_host w inventory;
           ret (resolves, None)
       | Some f => ret (false, Some f)
       end
     else ret (true, None));
  if is_files : bool then
    make_inventory_from_files w inventory override_data cwd
      group_data_directories
  else
    match inventory_func with
    | None =>
        logger_warning (msg_unrecognised inventory);;
        ret Inventory_empty
    | Some f => make_inventory_from_func w f override_data
    end.

(** ** The shapes of hosts and groups *)

(** The items of a value that can be iterated: [py_iter] without its
    exception. *)
Definition iterable_items (v : value) : option (list value) :=
  match v with
  | VList xs | VTuple xs => Some xs
  | VStr s => Some (map VStr (Str.chars s))
  | VDict _ d => Some (map VStr (dict_keys d))
  | _ => None
  end.

(** What the loader takes for a group: a name without leading underscore,
    bound to a list, or to a tuple whose first component can be iterated,
    of items that are strings or tuples. *)
Definition loader_accepts (key : string) (value : value) : bool :=
  negb (Str.startswith "_" key) &&
  match value with
  | VList items => forallb ALLOWED_HOST_TYPES items
  | VTuple (first :: _) =>
      match iterable_items first with
      | Some items => forallb ALLOWED_HOST_TYPES items
      | None => false
      end
  | _ => false
  end.

(** The group shapes of the specification (section 4.2): a host is a bare
    string or a (string, mapping) pair; a group is a plain sequence of
    hosts or a (sequence, mapping) pair. *)
Definition spec_host (v : value) : bool :=
  match v with
  | VStr _ => true
  | VTuple [VStr _; VDict _ _] => true
  | _ => false
  end.

Definition spec_group (v : value) : bool :=
  match v with
  | VList items => forallb spec_host items
  | VTuple [VList items; VDict _ _] => forallb spec_host items
  | _ => false
  end.

Definition spec_accepts (key : string) (value : value) : bool :=
  negb (Str.startswith "_" key) && spec_group value.

(** An inventory file that binds [PORTS = (80, 443)], and nothing else. *)
Definition ports_file : string := "inventory.py".
Definition ports_world : world := {|
  path_exists p := String.eqb p ports_file;
  path_isfile p := String.eqb p ports_file;
  listdir _ := [];
  abspath p := p;
  exec_file _ p :=
    if String.eqb p ports_file
    then Ok [("PORTS", VTuple [VInt 80; VInt 443])]
    else Raised (Exn (OtherError "FileNotFoundError") [FValue (VStr p)]);
  try_import_module_attribute _ := None;
  getaddrinfo _ := false;
  get_ssh_config := None;
  set_order names := names;
|}.

(** An inventory file with two groups and a private binding. *)
Definition sample_attrs : dict :=
  [("__file__", VStr "inventory.py");
   ("_helpers", VList [VStr "x"]);
   ("web", VList [VStr "web1"; VTuple [VStr "web2"; VDict None []]]);
   ("retries", VInt 3);
   ("db", VTuple [VList [VStr "db1"]; VDict None [("port", VInt 5432)]]);
   ("broken", VList [VStr "h"; VInt 7])].

Definition sample_world : world := {|
  path_exists p := String.eqb p "inventory.py";
  path_isfile p := String.eqb p "inventory.py";
  listdir _ := [];
  abspath p := p;
  exec_file _ p :=
    if String.eqb p "inventory.py" then Ok sample_attrs
    else Raised (Exn (OtherError "FileNotFoundError") [FValue (VStr p)]);
  try_import_module_attribute _ := None;
  getaddrinfo _ := false;
  get_ssh_config := None;
  set_order names := names;
|}.

(** What the loader keeps of that file, its hosts, and its groups once the
    [all] group is resolved. *)
Definition sample_loaded : dict :=
  [("web", VList [VStr "web1"; VTuple [VStr "web2"; VDict None []]]);
   ("db", VTuple [VList [VStr "db1"]; VDict None [("port", VInt 5432)]])].



(** ** The [all] group, in the words of the specification *)

(** The ordered union: every name once, in the order in which the names are
    first seen. *)
Fixpoint ordered_union (names : list string) : list string :=
  match names with
  | [] => []
  | name :: rest => name :: filter (fun other => other ≠ name) (ordered_union rest)
  end.

(** The identity of a host: the string itself, or the first component of
    the tuple that carries its data. *)
Definition host_name (host : value) : option string :=
  match host with
  | VStr name => Some name
  | VTuple (VStr name :: _) => Some name
  | _ => None
  end.

(** The hosts of a group: the items of the group itself, or of the first
    component of the tuple that carries its data. *)
Definition group_host_items (group : value) : option (list value) :=
  match group with
  | VTuple [] => None
  | VTuple (hosts :: _) => iterable_items hosts
  | _ => iterable_items group
  end.



(** A group value as the pair (hosts, data): the pair itself, or the value
    with empty data when it is not a tuple. *)
Definition normalized_group (group : value) : option (value * value) :=
  match group with
  | VTuple [hosts; data] => Some (hosts, data)
  | VTuple _ => None
  | _ => Some (group, VDict None [])
  end.



(** ** The group of the file name *)



(** ** A host list next to group data files *)

(** No file is named [h1,h2,h1]; the working directory [/srv] has a
    [group_data] folder with the files [all.py] and [web.py]. *)
Definition host_list_world : world := {|
  path_exists p := String.eqb p "/srv/group_data";
  path_isfile _ := false;
  listdir p :=
    if String.eqb p "/srv/group_data" then ["all.py"; "web.py"; "notes.txt"]
    else [];
  abspath p := if String.eqb p "" then "/srv" else p;
  exec_file _ p :=
    if String.eqb p "/srv/group_data/all.py" then Ok [("ssh_user", VStr "deploy")]
    else if String.eqb p "/srv/group_data/web.py" then Ok [("port", VInt 80)]
    else Raised (Exn (OtherError "FileNotFoundError") [FValue (VStr p)]);
  try_import_module_attribute _ := None;
  getaddrinfo _ := false;
  get_ssh_config := None;
  set_order names := names;
|}.

(** ** The classification of the descriptor *)


(** A computation all of whose events are of one kind. *)
Definition emits_only {A} (P : event -> Prop) (m : M A) : Prop :=
  Forall P (events m).

(** The alias that the SSH configuration gives for a name, when it has one
    that differs from the name. *)
Definition ssh_alias (w : world) (host : string) : option string :=
  match get_ssh_config w with
  | None => None
  | Some lookup =>
      match dict_get "hostname" (lookup host) with
      | Some alias => if String.eqb host alias then None else Some alias
      | None => None
      end
  end.

(** A descriptor resolves as a host name when the name resolves, or when
    its SSH alias does. *)
Definition resolves (w : world) (host : string) : bool :=
  getaddrinfo w host
  || match ssh_alias w host with
     | Some alias => negb (String.eqb alias "") && getaddrinfo w alias
     | None => false
     end.

(** The resolver of the specification:
    [make_hosts() -> {"web": (["h1", "h2"], {"port": 80})}]. *)
Definition make_hosts : py_function := {|
  fn_name := "make_hosts";
  fn_call :=
    Ok (VDict None
          [("web", VTuple [VList [VStr "h1"; VStr "h2"];
                           VDict None [("port", VInt 80)]])]);
|}.

(** A world in which every name can be imported and every name resolves,
    and one in which nothing can be imported and nothing resolves. *)
Definition import_world : world := {|
  path_exists _ := false;
  path_isfile _ := false;
  listdir _ := [];
  abspath p := p;
  exec_file _ p :=
    Raised (Exn (OtherError "FileNotFoundError") [FValue (VStr p)]);
  try_import_module_attribute _ := Some make_hosts;
  getaddrinfo _ := true;
  get_ssh_config := None;
  set_order names := names;
|}.

Definition isolated_world : world := {|
  path_exists _ := false;
  path_isfile _ := false;
  listdir _ := [];
  abspath p := p;
  exec_file _ p :=
    Raised (Exn (OtherError "FileNotFoundError") [FValue (VStr p)]);
  try_import_module_attribute _ := None;
  getaddrinfo _ := false;
  get_ssh_config :=
    Some (fun host =>
            if String.eqb host "not-a-path-or-host"
            then [("hostname", "unknown.invalid")]
            else [("hostname", host)]);
  set_order names := names;
|}.

(** ** The mapping that a resolver function returns *)

(** A group as the pair it is stored as. *)
Definition group_pair (group : value) : value :=
  match normalized_group group with
  | Some (hosts, data) => VTuple [hosts; data]
  | None => group
  end.

(** The host names of a group that a resolver may return: the group is a
    sequence of hosts, or a (sequence, mapping) pair, and each host is a
    string or a tuple that starts with a string. *)
Definition resolver_group_names (group : value) : option (list string) :=
  '(hosts, data) ← normalized_group group;
  if is_dict data then items ← iterable_items hosts; mapM host_name items
  else None.

(** A valid mapping, and the host names in it, group after group. *)
Definition resolver_host_names (groups : dict) : option (list string) :=
  names ← mapM (fun group => resolver_group_names (snd group)) groups;
  Some (concat names).

(** The four cases of failure that the specification names: the function
    raises; it does not return a mapping; the data of a group is not a
    mapping; a host does not reduce to a string. *)
Definition data_not_mapping (group : value) : bool :=
  match group with
  | VTuple [_; data] => negb (is_dict data)
  | _ => false
  end.

Definition host_not_string (group : value) : bool :=
  match group_host_items group with
  | Some items =>
      existsb (fun host => match host_name host with
                           | Some _ => false
                           | None => true
                           end) items
  | None => false
  end.

Definition named_failure_case (f : py_function) : bool :=
  match fn_call f with
  | Raised _ => true
  | Ok (VDict _ groups) =>
      existsb (fun group => data_not_mapping (snd group)
                            || host_not_string (snd group)) groups
  | Ok _ => true
  end.

Definition is_text (part : fragment) : bool :=
  match part with FText _ => true | FValue _ => false end.

(** Resolvers that return [{"web": None}], the number 3, and that raise. *)
Definition returns_none_group : py_function := {|
  fn_name := "make_hosts";
  fn_call := Ok (VDict None [("web", VNone)]);
|}.

Definition returns_number : py_function := {|
  fn_name := "make_hosts";
  fn_call := Ok (VInt 3);
|}.

Definition raises_error : py_function := {|
  fn_name := "make_hosts";
  fn_call := Raised (Exn (OtherError "RuntimeError") [FText "no network"]);
|}.


(** ** Group data for groups that share their data mapping *)

(** The inventory file [/srv/inventory.py]:
<<
    common = {"ssh_user": "deploy"}
    web = (["web1"], common)
    db = (["db1"], common)
>>
    next to [/srv/group_data/web.py] ([port = 80]) and
    [/srv/group_data/db.py] ([port = 5432]). The mapping [common] is one
    object, here the object 0, with three references to it. *)
Definition common_data : value := VDict (Some 0) [("ssh_user", VStr "deploy")].

Definition shared_data_world : world := {|
  path_exists p :=
    String.eqb p "/srv/inventory.py" || String.eqb p "/srv/group_data";
  path_isfile p := String.eqb p "/srv/inventory.py";
  listdir p :=
    if String.eqb p "/srv/group_data" then ["web.py"; "db.py"] else [];
  abspath p := p;
  exec_file _ p :=
    if String.eqb p "/srv/inventory.py" then
      Ok [("common", common_data);
          ("web", VTuple [VList [VStr "web1"]; common_data]);
          ("db", VTuple [VList [VStr "db1"]; common_data])]
    else if String.eqb p "/srv/group_data/web.py" then Ok [("port", VInt 80)]
    else if String.eqb p "/srv/group_data/db.py" then Ok [("port", VInt 5432)]
    else Raised (Exn (OtherError "FileNotFoundError") [FValue (VStr p)]);
  try_import_module_attribute _ := None;
  getaddrinfo _ := false;
  get_ssh_config := None;
  set_order names := names;
|}.

(** The provisional inventory under which the files of
    [/srv/group_data] are executed. *)
Definition shared_data_fake : Inventory :=
  fake_inventory (VList [VStr "web1"; VStr "db1"]) (VDict None [])
    [("web", VTuple [VList [VStr "web1"]; common_data]);
     ("db", VTuple [VList [VStr "db1"]; common_data]);
     ("all", VTuple [VList [VStr "web1"; VStr "db1"]; VDict None []]);
     ("inventory", VList [VStr "web1"; VStr "db1"])].

(** Line 321: the data found under a group name is merged into what was
    collected for that name before. *)
Definition merge_group_data (group_data : list (string * dict))
    (item : string * dict) : list (string * dict) :=
  dict_set (fst item)
    (dict_update (default [] (dict_get (fst item) group_data)) (snd item))
    group_data.

(** A group whose data mapping has no other reference: its hosts and its
    data. A group without data has the empty mapping. *)
Definition unshared_group (group : value) : option (value * dict) :=
  match normalized_group group with
  | Some (hosts, VDict None items) => Some (hosts, items)
  | _ => None
  end.

(** Such a group once the data collected under its name is merged into its
    own data. *)
Definition merged_group (group_data : list (string * dict))
    (name : string) (group : value) : value :=
  match unshared_group group with
  | Some (hosts, items) =>
      VTuple [hosts;
              VDict None
                (dict_update items (default [] (dict_get name group_data)))]
  | None => group
  end.

(** ** Further definitions: events, shapes and worlds *)


Definition is_warning (ev : event) : bool :=
  match ev with LogWarning _ => true | _ => false end.

(** An event that is not the execution of a file, or the execution of a
    file whose name ends in [.py]. *)
Definition executes_python_only (ev : event) : Prop :=
  match ev with
  | ExecFile file => Str.endswith ".py" file = true
  | _ => True
  end.

(** No event at all. *)
Definition no_event (ev : event) : Prop := False.

(** A tuple of two components. *)
Definition is_pair (v : value) : bool :=
  match v with
  | VTuple [_; _] => true
  | _ => false
  end.

(** A world in which the name [db.internal] resolves, through no alias,
    and nothing can be imported. *)
Definition dns_world : world := {|
  path_exists _ := false;
  path_isfile _ := false;
  listdir _ := [];
  abspath p := p;
  exec_file _ p :=
    Raised (Exn (OtherError "FileNotFoundError") [FValue (VStr p)]);
  try_import_module_attribute _ := None;
  getaddrinfo host := String.eqb host "db.internal";
  get_ssh_config := None;
  set_order names := names;
|}.

(** A world whose inventory file [broken.py] cannot be executed. *)
Definition syntax_error : exn :=
  Exn (OtherError "SyntaxError") [FText "invalid syntax"].

Definition broken_file_world : world := {|
  path_exists p := String.eqb p "broken.py" || String.eqb p "group_data";
  path_isfile p := String.eqb p "broken.py";
  listdir p := if String.eqb p "group_data" then ["all.py"] else [];
  abspath p := p;
  exec_file _ p :=
    if String.eqb p "broken.py" then Raised syntax_error
    else Ok [("ssh_user", VStr "deploy")];
  try_import_module_attribute _ := None;
  getaddrinfo _ := false;
  get_ssh_config := None;
  set_order names := names;
|}.

(** The events that scanning [path] for group data may produce: logs, and
    the execution of [path] itself or of a direct entry of [path], which
    exists, when its name ends in [.py]. *)
Definition group_data_event (w : world) (path : string) (ev : event)
  : Prop :=
  match ev with
  | ExecFile file =>
      Str.endswith ".py" file = true
      /\ path_exists w path = true
      /\ (file = path
          \/ exists entry,
               entry ∈ listdir w path /\ file = Path.join path entry)
  | TryImport _ | Getaddrinfo _ => False
  | LogDebug _ | LogWarning _ => True
  end.

(** The group data file [group_data/web.py]:
<<
    __all__ = ["port"]
    port = 80
    helper = 1
>>
    and the file [group_data/db.py] without export list, which binds
    [port = 5432] and [_timeout = 3]. *)
Definition web_data_attrs : dict :=
  [("__all__", VList [VStr "port"]); ("port", VInt 80); ("helper", VInt 1)].

Definition db_data_attrs : dict :=
  [("__file__", VStr "group_data/db.py"); ("port", VInt 5432);
   ("_timeout", VInt 3)].

Definition export_world : world := {|
  path_exists p :=
    String.eqb p "group_data/web.py" || String.eqb p "group_data/db.py";
  path_isfile p :=
    String.eqb p "group_data/web.py" || String.eqb p "group_data/db.py";
  listdir _ := [];
  abspath p := p;
  exec_file _ p :=
    if String.eqb p "group_data/web.py" then Ok web_data_attrs
    else if String.eqb p "group_data/db.py" then Ok db_data_attrs
    else Raised (Exn (OtherError "FileNotFoundError") [FValue (VStr p)]);
  try_import_module_attribute _ := None;
  getaddrinfo _ := false;
  get_ssh_config := None;
  set_order names := names;
|}.

(** Two folders with data for the group [web]: [/srv/group_data/web.py]
    binds [port = 80] and [ssh_user = "deploy"], and
    [/srv/inventories/group_data/web.py] binds [port = 8080]. *)
Definition layered_world : world := {|
  path_exists p :=
    String.eqb p "/srv/group_data"
    || String.eqb p "/srv/inventories/group_data";
  path_isfile _ := false;
  listdir _ := ["web.py"];
  abspath p := p;
  exec_file _ p :=
    if String.eqb p "/srv/group_data/web.py"
    then Ok [("port", VInt 80); ("ssh_user", VStr "deploy")]
    else if String.eqb p "/srv/inventories/group_data/web.py"
    then Ok [("port", VInt 8080)]
    else Raised (Exn (OtherError "FileNotFoundError") [FValue (VStr p)]);
  try_import_module_attribute _ := None;
  getaddrinfo _ := false;
  get_ssh_config := None;
  set_order names := names;
|}.

(** Two groups with data mappings of their own: [web] with explicit data,
    [db] without. *)
Definition own_data_groups : dict :=
  [("web", VTuple [VList [VStr "w1"];
                   VDict None [("port", VInt 1); ("tier", VStr "front")]]);
   ("db", VList [VStr "d1"])].

Definition layered_folders : list string :=
  ["/srv/group_data"; "/srv/inventories/group_data"].

(** The inventory that make_inventory_from_files returns for the file
    [/srv/inventory.py] of [shared_data_world]. *)
Definition shared_data_result : Inventory :=
  Inventory_init
    (VTuple [VList [VStr "web1"; VStr "db1"]; VDict None []]) None
    [("web", VTuple [VList [VStr "web1"];
                     VDict (Some 0) [("ssh_user", VStr "deploy");
                                     ("port", VInt 5432)]]);
     ("db", VTuple [VList [VStr "db1"];
                    VDict (Some 0) [("ssh_user", VStr "deploy");
                                    ("port", VInt 5432)]]);
     ("inventory",
      VTuple [VList [VStr "web1"; VStr "db1"]; VDict None []])].

(** A host that reduces to an identity: anything but the empty tuple. A
    group whose hosts can be gone through and reduce to identities. *)
Definition host_reducible (host : value) : bool :=
  match host with
  | VTuple [] => false
  | _ => true
  end.

Definition synthesizable (group : value) : bool :=
  match group_host_items group with
  | Some items => forallb host_reducible items
  | None => false
  end.

Definition index_or_type_error (e : exn) : Prop :=
  exn_cls e = IndexError \/ exn_cls e = TypeError.

(** Lines 281-284, one turn of the inner loop of the synthesis, and lines
    277-284, one turn of its outer loop. *)
Definition add_host_identity (all_hosts : list value) (host : value)
  : M (list value) :=
  hostname ← _get_any_tuple_first host;
  ret (if py_in_list hostname all_hosts then all_hosts
       else all_hosts ++ [hostname]).

Definition add_group_hosts (all_hosts : list value) (group : string * value)
  : M (list value) :=
  hosts ← _get_any_tuple_first (snd group);
  hosts ← py_iter hosts;
  for_each hosts all_hosts add_host_identity.

(** * Properties *)

(** ** Strings and paths, on the values of Python *)

Example split_keeps_empty_fields :
  Str.split ","%char "a,b,,c" = ["a"; "b"; ""; "c"]
  /\ Str.split ","%char "" = [""]
  /\ Str.split ","%char "a," = ["a"; ""].
Proof. repeat split; reflexivity. Qed.

Example rsplit1_head_strips_last_extension :
  Str.rsplit1_head "."%char "dev.tar.py" = "dev.tar"
  /\ Str.rsplit1_head "."%char "dev" = "dev"
  /\ Str.rsplit1_head "."%char ".hosts" = "".
Proof. repeat split; reflexivity. Qed.

Example posixpath_values :
  Path.basename "inventories/dev.py" = "dev.py"
  /\ Path.basename "inventories/" = ""
  /\ Path.dirname "inventories/dev.py" = "inventories"
  /\ Path.dirname "/dev.py" = "/"
  /\ Path.dirname "dev.py" = ""
  /\ Path.join "/srv" "group_data" = "/srv/group_data"
  /\ Path.join "" "group_data" = "group_data"
  /\ Path.join "/srv" "/etc/group_data" = "/etc/group_data".
Proof. repeat split; reflexivity. Qed.

(** ** Computations *)

Lemma bind_unfold {A B} (m : M A) (k : A -> M B) :
  m ≫= k =
  match m with
  | (l1, Ok a) => (l1 ++ events (k a), outcome (k a))
  | (l1, Raised e) => (l1, Raised e)
  end.
Proof.
  unfold mbind, M_bind, bind, events, outcome.
  destruct m as [l1 [a|e]]; [destruct (k a)|]; reflexivity.
Qed.

Lemma outcome_bind {A B} (m : M A) (k : A -> M B) :
  outcome (m ≫= k) =
  match outcome m with
  | Ok a => outcome (k a)
  | Raised e => Raised e
  end.
Proof. rewrite bind_unfold. destruct m as [l1 [a|e]]; reflexivity. Qed.

Lemma events_bind {A B} (m : M A) (k : A -> M B) :
  events (m ≫= k) =
  events m ++ match outcome m with
              | Ok a => events (k a)
              | Raised _ => []
              end.
Proof.
  rewrite bind_unfold. destruct m as [l1 [a|e]]; simpl; [done|].
  by rewrite app_nil_r.
Qed.

Lemma outcome_ret {A} (a : A) : outcome (ret a) = Ok a.
Proof. reflexivity. Qed.

Lemma outcome_raise {A} (e : exn) : outcome (raise e : M A) = Raised e.
Proof. reflexivity. Qed.

Lemma outcome_emit (ev : event) : outcome (emit ev) = Ok tt.
Proof. reflexivity. Qed.

Lemma outcome_logger_debug (m : message) : outcome (logger_debug m) = Ok tt.
Proof. reflexivity. Qed.

Lemma outcome_logger_warning (m : message) :
  outcome (logger_warning m) = Ok tt.
Proof. reflexivity. Qed.

(** The outcome of a sequence of computations, as far as its first steps
    are known. *)
Ltac outcome_steps :=
  repeat (first [ rewrite outcome_bind | rewrite outcome_ret
                | rewrite outcome_raise | rewrite outcome_emit
                | rewrite outcome_logger_debug
                | rewrite outcome_logger_warning ];
          cbn iota).

Lemma outcome_bind_ok {A B} (m : M A) (k : A -> M B) (a : A) :
  outcome m = Ok a -> outcome (m ≫= k) = outcome (k a).
Proof. intros H. by rewrite outcome_bind, H. Qed.

Lemma outcome_bind_raised {A B} (m : M A) (k : A -> M B) (e : exn) :
  outcome m = Raised e -> outcome (m ≫= k) = Raised e.
Proof. intros H. by rewrite outcome_bind, H. Qed.

Lemma outcome_bind_inv {A B} (m : M A) (k : A -> M B) (b : B) :
  outcome (m ≫= k) = Ok b ->
  exists a, outcome m = Ok a /\ outcome (k a) = Ok b.
Proof.
  rewrite outcome_bind. destruct (outcome m) as [a|e]; [eauto|discriminate].
Qed.

Lemma for_each_nil {A S} (s : S) (body : S -> A -> M S) :
  for_each [] s body = ret s.
Proof. reflexivity. Qed.

Lemma for_each_cons {A S} (x : A) (xs : list A) (s : S)
    (body : S -> A -> M S) :
  for_each (x :: xs) s body = body s x ≫= (fun s' => for_each xs s' body).
Proof. reflexivity. Qed.

(** A loop whose body never raises computes a left fold. *)
Lemma for_each_fold {A S} (step : S -> A -> S) (body : S -> A -> M S)
    (xs : list A) (s : S) :
  (forall s x, x ∈ xs -> outcome (body s x) = Ok (step s x)) ->
  outcome (for_each xs s body) = Ok (fold_left step xs s).
Proof.
  revert s. induction xs as [|x xs IH]; intros s Hbody; [done|].
  rewrite for_each_cons, outcome_bind, Hbody by left.
  simpl. apply IH. intros s' y Hy. apply Hbody. by right.
Qed.

(** ** Dictionaries *)

Lemma dict_get_None {V} (k : string) (d : list (string * V)) :
  dict_get k d = None <-> k ∉ dict_keys d.
Proof.
  induction d as [|[k' v] d IH]; simpl.
  - split; [intros _; apply not_elem_of_nil|done].
  - rewrite not_elem_of_cons. destruct (String.eqb_spec k k') as [->|Hne].
    + split; [done|]. intros [? _]. done.
    + rewrite IH. tauto.
Qed.

Lemma dict_mem_false {V} (k : string) (d : list (string * V)) :
  dict_mem k d = false <-> k ∉ dict_keys d.
Proof.
  unfold dict_mem. rewrite <- dict_get_None.
  destruct (dict_get k d); split; congruence.
Qed.


Lemma dict_set_fresh {V} (k : string) (v : V) (d : list (string * V)) :
  k ∉ dict_keys d -> dict_set k v d = d ++ [(k, v)].
Proof.
  induction d as [|[k' v'] d IH]; simpl; [done|].
  rewrite not_elem_of_cons. intros [Hne Hd].
  destruct (String.eqb_spec k k'); [done|]. by rewrite IH.
Qed.

Lemma dict_get_Some_elem {V} (k : string) (v : V) (d : list (string * V)) :
  dict_get k d = Some v -> (k, v) ∈ d.
Proof.
  induction d as [|[k' v'] d IH]; simpl; [done|].
  destruct (String.eqb_spec k k') as [->|Hne].
  - intros [= ->]. left.
  - intros H. right. auto.
Qed.

Lemma dict_remove_absent {V} (k : string) (d : list (string * V)) :
  k ∉ dict_keys d -> dict_remove k d = d.
Proof.
  induction d as [|[k' v'] d IH]; simpl; [done|].
  rewrite not_elem_of_cons. intros [Hne Hd].
  destruct (String.eqb_spec k k'); [done|]. by rewrite IH.
Qed.

Lemma dict_keys_app {V} (d1 d2 : list (string * V)) :
  dict_keys (d1 ++ d2) = dict_keys d1 ++ dict_keys d2.
Proof. apply map_app. Qed.

Lemma dict_keys_set {V} (k : string) (v : V) (d : list (string * V)) :
  dict_keys (dict_set k v d)
  = if decide (k ∈ dict_keys d) then dict_keys d else dict_keys d ++ [k].
Proof.
  induction d as [|[k' v'] d IH]; simpl; [done|].
  destruct (String.eqb_spec k k') as [->|Hne]; simpl.
  - rewrite decide_True; [done|left].
  - rewrite IH. destruct (decide (k ∈ dict_keys d)) as [Hin|Hnin].
    + rewrite decide_True; [done|by right].
    + rewrite decide_False; [done|].
      rewrite elem_of_cons. tauto.
Qed.

(** A comprehension over distinct keys whose condition never raises keeps
    the items that satisfy it, in order. *)
Lemma dict_comprehension_filter (keep : string -> value -> M bool)
    (p : string -> value -> bool) (items : dict) :
  NoDup (dict_keys items) ->
  (forall k v, (k, v) ∈ items -> outcome (keep k v) = Ok (p k v)) ->
  outcome (dict_comprehension keep items)
  = Ok (List.filter (fun kv => p (fst kv) (snd kv)) items).
Proof.
  unfold dict_comprehension.
  cut (forall acc,
          NoDup (dict_keys items) ->
          (forall k, k ∈ dict_keys items -> k ∉ dict_keys acc) ->
          (forall k v, (k, v) ∈ items -> outcome (keep k v) = Ok (p k v)) ->
          outcome (for_each items acc (fun kept item =>
                     b ← keep (fst item) (snd item);
                     ret (if b : bool
                          then dict_set (fst item) (snd item) kept
                          else kept)))
          = Ok (acc ++ List.filter (fun kv => p (fst kv) (snd kv)) items)).
  { intros H Hnd Hk. apply (H []); [done| |done].
    intros k _. apply not_elem_of_nil. }
  induction items as [|[k v] items IH]; intros acc Hnd Hacc Hkeep.
  - simpl. by rewrite app_nil_r.
  - rewrite for_each_cons, outcome_bind, outcome_bind.
    simpl fst; simpl snd. rewrite (Hkeep k v) by left.
    simpl in Hnd. apply NoDup_cons in Hnd as [Hk Hnd].
    rewrite outcome_ret. simpl List.filter.
    destruct (p k v).
    + rewrite dict_set_fresh by (apply Hacc; left).
      rewrite IH; [by rewrite <- app_assoc|done| |].
      * intros k' Hk'. rewrite dict_keys_app, not_elem_of_app. split.
        -- apply Hacc. by right.
        -- simpl. rewrite not_elem_of_cons. split; [|apply not_elem_of_nil].
           intros ->. done.
      * intros k' v' Hin. apply Hkeep. by right.
    + rewrite IH; [done|done| |].
      * intros k' Hk'. apply Hacc. by right.
      * intros k' v' Hin. apply Hkeep. by right.
Qed.

(** ** The definition-file loader *)

Lemma startswith_double_underscore (key : string) :
  Str.startswith "__" key = true -> Str.startswith "_" key = true.
Proof.
  destruct key as [|c key]; [done|]. cbn [Str.startswith].
  by destruct (Ascii.eqb "_" c).
Qed.

Lemma py_iter_outcome (v : value) :
  outcome (py_iter v)
  = match iterable_items v with
    | Some items => Ok items
    | None => Raised (Exn TypeError [FValue v; FText " object is not iterable"])
    end.
Proof. by destruct v. Qed.

(** What the classification of one binding returns, in every case. *)
Lemma is_inventory_group_outcome (key : string) (value : value) :
  outcome (_is_inventory_group key value)
  = if Str.startswith "_" key then Ok false
    else match value with
         | VList items => Ok (forallb ALLOWED_HOST_TYPES items)
         | VTuple [] =>
             Raised (Exn IndexError [FText "tuple index out of range"])
         | VTuple (first :: _) =>
             match iterable_items first with
             | Some items => Ok (forallb ALLOWED_HOST_TYPES items)
             | None =>
                 Raised (Exn TypeError
                           [FValue first; FText " object is not iterable"])
             end
         | _ => Ok false
         end.
Proof.
  unfold _is_inventory_group.
  destruct (Str.startswith "__" key) eqn:E2.
  { by rewrite (startswith_double_underscore _ E2). }
  destruct (Str.startswith "_" key); [done|].
  destruct value as [| | |items|[|first rest]| |]; try done.
  - rewrite outcome_bind. simpl.
    by destruct (forallb ALLOWED_HOST_TYPES items).
  - rewrite outcome_bind. simpl. rewrite outcome_bind, py_iter_outcome.
    destruct (iterable_items first) as [items|]; [|done].
    by destruct (forallb ALLOWED_HOST_TYPES items).
Qed.

Lemma is_inventory_group_accepts (key : string) (value : value) :
  outcome (_is_inventory_group key value) = Ok true
  <-> loader_accepts key value = true.
Proof.
  rewrite is_inventory_group_outcome. unfold loader_accepts.
  destruct (Str.startswith "_" key); simpl; [split; discriminate|].
  destruct value as [| | |items|[|first rest]| |];
    try (split; discriminate).
  - split; [by intros [= ->]|by intros ->].
  - destruct (iterable_items first); [|split; discriminate].
    split; [by intros [= ->]|by intros ->].
Qed.

(** C8, as stated, fails: the loader looks at the type of the container
    only. It accepts a group whose host is a pair of integers, and a group
    given as a pair whose second component is not a mapping; neither has
    the shape the claim requires. *)
Lemma C8_counterexample :
  outcome (_is_inventory_group "web" (VList [VTuple [VInt 1; VInt 2]]))
    = Ok true
  /\ spec_accepts "web" (VList [VTuple [VInt 1; VInt 2]]) = false
  /\ outcome (_is_inventory_group "db" (VTuple [VList [VStr "db1"]; VInt 5]))
    = Ok true
  /\ spec_accepts "db" (VTuple [VList [VStr "db1"]; VInt 5]) = false.
Proof. repeat split; reflexivity. Qed.

(** C8, amended: a binding is accepted exactly when its name has no leading
    underscore and its value is a list, or a tuple whose first component can
    be iterated, all of whose items are strings or tuples (of any content);
    one item of another type rejects the whole binding, with a warning; and
    when no classification raises, the loader returns exactly the accepted
    bindings, in order. *)
Theorem C8_loader_accepts_by_container_type
    (w : world) (file : string) (attrs : dict) :
  exec_file w None file = Ok attrs ->
  NoDup (dict_keys attrs) ->
  (forall k v, (k, v) ∈ attrs ->
     exists b, outcome (_is_inventory_group k v) = Ok b) ->
  (forall key value,
     outcome (_is_inventory_group key value) = Ok true
     <-> loader_accepts key value = true)
  /\ (forall key items,
        Str.startswith "_" key = false ->
        forallb ALLOWED_HOST_TYPES items = false ->
        _is_inventory_group key (VList items)
          = ([LogWarning (msg_bad_host_group key)], Ok false)
        /\ forall first rest,
             iterable_items first = Some items ->
             _is_inventory_group key (VTuple (first :: rest))
               = ([LogWarning (msg_bad_host_group key)], Ok false))
  /\ outcome (_get_groups_from_filename w file)
     = Ok (List.filter (fun kv => loader_accepts (fst kv) (snd kv)) attrs).
Proof.
  intros Hexec Hnodup Hreturns. split; [|split].
  - apply is_inventory_group_accepts.
  - intros key items Hkey Hitems.
    assert (Str.startswith "__" key = false) as Hkey2.
    { destruct (Str.startswith "__" key) eqn:E; [|done].
      apply startswith_double_underscore in E. congruence. }
    unfold _is_inventory_group. rewrite Hkey, Hkey2. split.
    + rewrite bind_unfold. simpl. by rewrite Hitems.
    + intros first rest Hiter. rewrite bind_unfold. simpl.
      rewrite bind_unfold.
      destruct first; simpl in Hiter; try discriminate;
        injection Hiter as <-; simpl; by rewrite Hitems.
  - unfold _get_groups_from_filename, call_exec_file.
    rewrite outcome_bind, outcome_bind, Hexec. simpl.
    apply dict_comprehension_filter; [done|].
    intros k v Hin. destruct (Hreturns k v Hin) as [b Hb].
    rewrite Hb. f_equal.
    destruct (loader_accepts k v) eqn:E.
    + apply is_inventory_group_accepts in E. congruence.
    + destruct b; [|done].
      apply is_inventory_group_accepts in Hb. congruence.
Qed.

Lemma C8_witness :
  outcome (_get_groups_from_filename sample_world "inventory.py")
  = Ok [("web", VList [VStr "web1"; VTuple [VStr "web2"; VDict None []]]);
        ("db", VTuple [VList [VStr "db1"]; VDict None [("port", VInt 5432)]])].
Proof.
  refine (proj2 (proj2 (C8_loader_accepts_by_container_type
                          sample_world "inventory.py" sample_attrs _ _ _))).
  - reflexivity.
  - apply (bool_decide_unpack _). vm_compute. exact I.
  - intros k v Hin. unfold sample_attrs in Hin.
    repeat (apply elem_of_cons in Hin as [[= -> ->]|Hin];
            [eexists; reflexivity|]).
    by apply elem_of_nil in Hin.
Defined.

(** C9, on the code: a top-level binding [PORTS = (80, 443)] makes the
    classification raise [TypeError], an empty tuple makes it raise
    [IndexError], and the exception leaves the loader and
    [make_inventory]: the file itself executed without failure. *)
Theorem C9_tuple_binding_raises :
  outcome (_is_inventory_group "PORTS" (VTuple [VInt 80; VInt 443]))
    = Raised (Exn TypeError [FValue (VInt 80); FText " object is not iterable"])
  /\ outcome (_is_inventory_group "EMPTY" (VTuple []))
    = Raised (Exn IndexError [FText "tuple index out of range"])
  /\ exec_file ports_world None ports_file
    = Ok [("PORTS", VTuple [VInt 80; VInt 443])]
  /\ outcome (_get_groups_from_filename ports_world ports_file)
    = Raised (Exn TypeError [FValue (VInt 80); FText " object is not iterable"])
  /\ outcome (make_inventory ports_world ports_file None None None)
    = Raised (Exn TypeError [FValue (VInt 80); FText " object is not iterable"]).
Proof. repeat split; reflexivity. Qed.

(** ** The ordered union *)



Lemma set_add_spec (name : string) (s : list string) :
  set_add name s = if decide (name ∈ s) then s else s ++ [name].
Proof.
  unfold set_add. destruct (existsb (String.eqb name) s) eqn:E.
  - apply existsb_exists in E as (y & Hy & Heq).
    apply String.eqb_eq in Heq as <-. apply list_elem_of_In in Hy.
    by rewrite decide_True.
  - rewrite decide_False; [done|]. intros Hin.
    apply list_elem_of_In in Hin.
    assert (existsb (String.eqb name) s = true) as E'; [|congruence].
    apply existsb_exists. exists name. split; [done|apply String.eqb_refl].
Qed.

(** Adding names one by one to a set kept in order of insertion gives the
    ordered union of what was there and what is added. *)
Lemma set_add_fold (names s : list string) :
  fold_left (fun s name => set_add name s) names s
  = s ++ filter (fun name => name ∉ s) (ordered_union names).
Proof.
  revert s. induction names as [|name rest IH]; intros s; simpl.
  - by rewrite app_nil_r.
  - rewrite IH, set_add_spec. destruct (decide (name ∈ s)) as [Hin|Hnin].
    + rewrite filter_cons_False by naive_solver.
      rewrite list_filter_filter. f_equal. apply list_filter_iff.
      intros x. split; [|naive_solver]. intros Hx. split; [done|].
      intros ->. done.
    + rewrite filter_cons_True by done.
      rewrite <- app_assoc. simpl. do 2 f_equal.
      rewrite list_filter_filter. apply list_filter_iff.
      intros x. rewrite not_elem_of_app, list_elem_of_singleton. tauto.
Qed.

Lemma set_add_fold_nil (names : list string) :
  fold_left (fun s name => set_add name s) names [] = ordered_union names.
Proof.
  rewrite set_add_fold. simpl. induction (ordered_union names) as [|x l IH].
  - done.
  - rewrite filter_cons_True by apply not_elem_of_nil. by rewrite IH.
Qed.

(** ** The [all] group of make_inventory_from_files *)

Lemma py_in_list_names (name : string) (names : list string) :
  py_in_list (VStr name) (map VStr names) = existsb (String.eqb name) names.
Proof.
  unfold py_in_list. induction names as [|n names IH]; [done|].
  cbn [map existsb]. rewrite IH. by f_equal.
Qed.

Lemma get_any_tuple_first_host (host : value) (name : string) :
  host_name host = Some name ->
  _get_any_tuple_first host = ret (VStr name).
Proof.
  destruct host as [| |s| |[|[] ?]| |]; simpl; try discriminate;
    by intros [= ->].
Qed.







(** ** The group of the file name *)







(** ** Group data *)

Lemma for_each_invariant {A S} (P : S -> Prop) (body : S -> A -> M S)
    (xs : list A) (s r : S) :
  P s ->
  (forall s x s', P s -> outcome (body s x) = Ok s' -> P s') ->
  outcome (for_each xs s body) = Ok r ->
  P r.
Proof.
  intros Hs Hbody. revert s Hs.
  induction xs as [|x xs IH]; intros s Hs.
  - by intros [= <-].
  - rewrite for_each_cons. intros Hr.
    apply outcome_bind_inv in Hr as (s' & Hs' & Hr). eauto.
Qed.

Lemma dict_set_NoDup {V} (k : string) (v : V) (d : list (string * V)) :
  NoDup (dict_keys d) -> NoDup (dict_keys (dict_set k v d)).
Proof.
  intros Hd. rewrite dict_keys_set. destruct (decide (k ∈ dict_keys d)).
  - done.
  - apply NoDup_app. split; [done|]. split; [|apply NoDup_singleton].
    intros x Hx Hk. apply list_elem_of_singleton in Hk as ->. done.
Qed.

Lemma filter_all {A} (P : A -> Prop) `{forall x, Decision (P x)}
    (l : list A) :
  (forall x, x ∈ l -> P x) -> filter P l = l.
Proof.
  induction l as [|x l IH]; intros Hall; [done|].
  rewrite filter_cons_True by (apply Hall; left).
  f_equal. apply IH. intros y Hy. apply Hall. by right.
Qed.

Lemma dict_keys_remove {V} (k : string) (d : list (string * V)) :
  NoDup (dict_keys d) ->
  dict_keys (dict_remove k d) = filter (fun k' => k' ≠ k) (dict_keys d).
Proof.
  induction d as [|[k' v'] d IH]; simpl; [done|].
  intros Hnd. apply NoDup_cons in Hnd as [Hk' Hnd].
  destruct (String.eqb_spec k k') as [->|Hne].
  - rewrite filter_cons_False by tauto.
    symmetry. apply filter_all. intros x Hx ->. done.
  - rewrite filter_cons_True by congruence. simpl. by rewrite IH.
Qed.

Lemma dict_remove_NoDup {V} (k : string) (d : list (string * V)) :
  NoDup (dict_keys d) ->
  NoDup (dict_keys (dict_remove k d)) /\ k ∉ dict_keys (dict_remove k d).
Proof.
  intros Hnd. rewrite dict_keys_remove by done. split.
  - by apply NoDup_filter.
  - rewrite list_elem_of_filter. tauto.
Qed.

(** The collected group data has one entry for each name. *)
Lemma collect_group_data_NoDup (w : world) (ctx : Inventory)
    (folders : list string) (group_data : list (string * dict)) :
  outcome (collect_group_data w ctx folders) = Ok group_data ->
  NoDup (dict_keys group_data).
Proof.
  unfold collect_group_data.
  apply (for_each_invariant (fun gd => NoDup (dict_keys gd))).
  { constructor. }
  intros gd folder gd' Hgd Hstep.
  apply outcome_bind_inv in Hstep as (found & _ & Hstep).
  revert Hstep.
  apply (for_each_invariant (fun gd => NoDup (dict_keys gd))); [done|].
  intros gd1 [name data] gd2 Hgd1 Hbody.
  rewrite outcome_bind in Hbody. simpl in Hbody. injection Hbody as <-.
  by apply dict_set_NoDup.
Qed.

(** Names that are left and that no group bears are appended in order, each
    as a group without hosts. *)
Lemma add_leftover_groups_fresh (groups : dict)
    (group_data : list (string * dict)) :
  NoDup (dict_keys group_data) ->
  (forall k, k ∈ dict_keys group_data -> k ∉ dict_keys groups) ->
  add_leftover_groups groups group_data
  = groups ++ map (fun item =>
                     (fst item, VTuple [VList []; VDict None (snd item)]))
                group_data.
Proof.
  unfold add_leftover_groups. revert groups.
  induction group_data as [|[k d] gd IH]; intros groups Hnd Hfresh; simpl.
  - by rewrite app_nil_r.
  - simpl in Hnd. apply NoDup_cons in Hnd as [Hk Hnd].
    rewrite dict_set_fresh by (apply Hfresh; left).
    rewrite IH; [by rewrite <- app_assoc|done|].
    intros k' Hk'. rewrite dict_keys_app, not_elem_of_app. split.
    + apply Hfresh. by right.
    + simpl. rewrite list_elem_of_singleton. intros ->. done.
Qed.

(** ** A list of hosts *)

(** C5, as stated, fails: no file is named [h1,h2,h1], the [all] group is
    the list as given, and yet the inventory has a second group, [web]: the
    [group_data] folder holds a file [web.py]. *)
Lemma C5_counterexample :
  path_exists host_list_world "h1,h2,h1" = false
  /\ outcome (make_inventory_from_files host_list_world "h1,h2,h1"
                None (Some "/srv") None)
     = Ok (Inventory_init
             (VTuple [VList [VStr "h1"; VStr "h2"; VStr "h1"];
                      VDict None [("ssh_user", VStr "deploy")]])
             None
             [("web", VTuple [VList []; VDict None [("port", VInt 80)]])]).
Proof. split; reflexivity. Qed.

Lemma attach_group_data_all (hosts : value)
    (group_data : list (string * dict)) :
  outcome (attach_group_data [("all", VTuple [hosts; VDict None []])]
             group_data)
  = Ok ([("all", VTuple [hosts;
                         VDict None
                           (dict_update []
                              (default [] (dict_get "all" group_data)))])],
        dict_remove "all" group_data).
Proof.
  unfold attach_group_data. cbn [dict_keys map fst].
  rewrite for_each_cons, outcome_bind.
  unfold attach_group_data_step at 1.
  cbn [dict_get String.eqb Ascii.eqb Bool.eqb].
  rewrite !outcome_bind. cbn [unpack2]. rewrite outcome_ret.
  destruct (dict_get "all" group_data) as [collected|] eqn:Hget.
  - reflexivity.
  - cbn. rewrite dict_remove_absent; [done|]. by apply dict_get_None.
Qed.

Lemma resolve_all_group_only_all (hosts : value) :
  is_tuple hosts = false ->
  outcome (resolve_all_group [("all", hosts)])
  = Ok (hosts, VDict None [], [("all", VTuple [hosts; VDict None []])]).
Proof. by destruct hosts. Qed.

(** C5, amended: for a descriptor that names no existing path, the hosts of
    the [all] group are the descriptor split on commas, as given, in order
    and with its repetitions; no group is derived from a file name; the
    other groups of the inventory are one group without hosts for each name
    other than [all] under which the scanned folders hold group data. *)
Theorem C5_host_list_verbatim
    (w : world) (inventory : string) (override_data : option dict)
    (cwd : option string) (group_data_directories : option (list string))
    (group_data : list (string * dict)) :
  let hosts := VList (map VStr (Str.split ","%char inventory)) in
  let fake :=
    fake_inventory hosts (VDict None [])
      [("all", VTuple [hosts; VDict None []])] in
  path_exists w inventory = false ->
  outcome (collect_group_data w fake
             (possible_group_data_folders w inventory cwd
                group_data_directories))
    = Ok group_data ->
  dict_mem "override_data" group_data = false ->
  outcome (make_inventory_from_files w inventory override_data cwd
             group_data_directories)
  = Ok (Inventory_init
          (VTuple [hosts;
                   VDict None
                     (dict_update []
                        (default [] (dict_get "all" group_data)))])
          override_data
          (map (fun item =>
                  (fst item, VTuple [VList []; VDict None (snd item)]))
             (dict_remove "all" group_data))).
Proof.
  intros hosts fake Hexists Hcollect Hkeyword.
  pose proof (collect_group_data_NoDup _ _ _ _ Hcollect) as Hnd.
  destruct (dict_remove_NoDup "all" group_data Hnd) as [Hnd' Hall].
  unfold make_inventory_from_files.
  rewrite outcome_bind. unfold initial_groups. rewrite Hexists.
  cbn [negb]. rewrite outcome_ret. cbn iota.
  rewrite outcome_bind.
  rewrite resolve_all_group_only_all by done.
  cbn iota. cbn [apply_file_groupname].
  rewrite outcome_bind. cbn [outcome logger_debug emit snd].
  rewrite outcome_bind. fold hosts. fold fake. rewrite Hcollect.
  rewrite outcome_bind, attach_group_data_all. cbn iota.
  rewrite add_leftover_groups_fresh; [|done|].
  2:{ intros k Hk. simpl. rewrite list_elem_of_singleton. intros ->. done. }
  rewrite outcome_bind. unfold dict_pop.
  cbn [app dict_get dict_remove String.eqb Ascii.eqb Bool.eqb].
  rewrite outcome_ret. cbn iota. unfold Inventory_call.
  match goal with
  | |- context [dict_mem "override_data" ?groups] =>
      assert (dict_mem "override_data" groups = false) as ->; [|done]
  end.
  apply dict_mem_false. apply dict_mem_false in Hkeyword.
  intros Hin. unfold dict_keys in Hin. rewrite map_map in Hin.
  assert ("override_data" ∈ dict_keys (dict_remove "all" group_data))
    as Hin' by exact Hin.
  rewrite dict_keys_remove in Hin' by done.
  apply list_elem_of_filter in Hin'. tauto.
Qed.

Lemma C5_witness :
  outcome (make_inventory_from_files host_list_world "h1,h2,h1"
             None (Some "/srv") None)
  = Ok (Inventory_init
          (VTuple [VList [VStr "h1"; VStr "h2"; VStr "h1"];
                   VDict None [("ssh_user", VStr "deploy")]])
          None
          [("web", VTuple [VList []; VDict None [("port", VInt 80)]])]).
Proof.
  refine (C5_host_list_verbatim host_list_world "h1,h2,h1" None (Some "/srv")
            None [("all", [("ssh_user", VStr "deploy")]);
                  ("web", [("port", VInt 80)])] _ _ _); reflexivity.
Defined.

(** ** The events of a computation *)

Lemma emits_only_ret {A} (P : event -> Prop) (a : A) : emits_only P (ret a).
Proof. constructor. Qed.

Lemma emits_only_raise {A} (P : event -> Prop) (e : exn) :
  emits_only P (raise e : M A).
Proof. constructor. Qed.

Lemma emits_only_emit (P : event -> Prop) (ev : event) :
  P ev -> emits_only P (emit ev).
Proof. intros H. by repeat constructor. Qed.

Lemma emits_only_bind {A B} (P : event -> Prop) (m : M A) (k : A -> M B) :
  emits_only P m -> (forall a, emits_only P (k a)) ->
  emits_only P (m ≫= k).
Proof.
  unfold emits_only. intros Hm Hk. rewrite events_bind.
  apply Forall_app. split; [done|].
  destruct (outcome m); [apply Hk|constructor].
Qed.

Lemma emits_only_for_each {A S} (P : event -> Prop) (xs : list A) (s : S)
    (body : S -> A -> M S) :
  (forall s x, emits_only P (body s x)) ->
  emits_only P (for_each xs s body).
Proof.
  intros Hbody. revert s. induction xs as [|x xs IH]; intros s.
  - apply emits_only_ret.
  - rewrite for_each_cons. by apply emits_only_bind.
Qed.

(** One step of the proof that a computation emits only events of one
    kind: through the sequencing, the loops and the case distinctions. *)
Ltac emits_only_step :=
  match goal with
  | |- emits_only _ (ret _) => apply emits_only_ret
  | |- emits_only _ (raise _) => apply emits_only_raise
  | |- emits_only _ (emit _) => apply emits_only_emit; exact I
  | |- emits_only _ (logger_debug _) => apply emits_only_emit; exact I
  | |- emits_only _ (logger_warning _) => apply emits_only_emit; exact I
  | |- emits_only _ (_ ≫= _) => apply emits_only_bind; [|intros ?]
  | |- emits_only _ (for_each _ _ _) => apply emits_only_for_each; intros ? ?
  | |- emits_only _ (match ?x with _ => _ end) => destruct x
  | |- emits_only _ (let '(_, _) := ?x in _) => destruct x
  end.

Ltac emits_only_auto := repeat (emits_only_step; try assumption).
















(** ** make_inventory *)

Lemma bind_ret {A B} (a : A) (k : A -> M B) : ret a ≫= k = k a.
Proof. rewrite bind_unfold. simpl. by destruct (k a). Qed.

Lemma bind_assoc {A B C} (m : M A) (k : A -> M B) (h : B -> M C) :
  (m ≫= k) ≫= h = m ≫= (fun a => k a ≫= h).
Proof.
  rewrite !bind_unfold. destruct m as [l1 [a|e]]; [|done].
  rewrite !bind_unfold. unfold events, outcome.
  destruct (k a) as [l2 [b|e]]; simpl; [|done].
  destruct (h b) as [l3 r]; simpl. by rewrite app_assoc.
Qed.



Lemma resolves_to_host_spec (w : world) (host : string) :
  outcome (_resolves_to_host w host) = Ok (resolves w host)
  /\ exists rest,
       events (_resolves_to_host w host) = Getaddrinfo host :: rest.
Proof.
  unfold _resolves_to_host, resolves, ssh_alias, call_getaddrinfo,
    _get_ssh_alias.
  split.
  - outcome_steps.
    destruct (getaddrinfo w host); [done|]. simpl orb.
    outcome_steps.
    destruct (get_ssh_config w) as [lookup|]; [|by outcome_steps].
    destruct (dict_get "hostname" (lookup host)) as [alias|];
      [|by outcome_steps].
    destruct (String.eqb host alias); [by outcome_steps|].
    outcome_steps. destruct alias; [done|]. by outcome_steps.
  - rewrite events_bind, events_bind. simpl. eauto.
Qed.





(** ** make_inventory_from_func *)

Lemma host_name_allowed (host : value) (name : string) :
  host_name host = Some name -> ALLOWED_HOST_TYPES host = true.
Proof. by destruct host. Qed.

Lemma check_hosts_names (fname : string) (items : list value)
    (names combined : list string) :
  mapM host_name items = Some names ->
  outcome (check_hosts fname items combined)
  = Ok (fold_left (fun s name => set_add name s) names combined).
Proof.
  rewrite mapM_Some. intros Hnames. unfold check_hosts. revert combined.
  induction Hnames as [|host name items names Hhost _ IH]; intros combined.
  - done.
  - rewrite for_each_cons, outcome_bind.
    rewrite (host_name_allowed _ _ Hhost). cbn [negb].
    rewrite outcome_bind, (get_any_tuple_first_host _ _ Hhost).
    outcome_steps. apply IH.
Qed.

Lemma resolver_group_names_inv (group : value) (names : list string) :
  resolver_group_names group = Some names ->
  exists hosts data items,
    normalized_group group = Some (hosts, data)
    /\ is_dict data = true
    /\ iterable_items hosts = Some items
    /\ mapM host_name items = Some names.
Proof.
  unfold resolver_group_names.
  destruct (normalized_group group) as [[hosts data]|]; [|discriminate].
  simpl. destruct (is_dict data) eqn:Hdata; [|discriminate].
  destruct (iterable_items hosts) as [items|] eqn:Hitems; [|discriminate].
  simpl. intros Hnames. by exists hosts, data, items.
Qed.

Lemma unpack_group (group hosts data : value) :
  normalized_group group = Some (hosts, data) ->
  outcome match group with
          | VTuple xs => unpack2 xs
          | _ => ret (group, VDict None [])
          end
  = Ok (hosts, data).
Proof.
  destruct group as [| | | |[|h [|d [|? ?]]]| |]; simpl;
    try discriminate; by intros [= <- <-].
Qed.

Lemma check_group_valid (fname key : string) (group : value)
    (names combined : list string) (groups_with_data : dict) :
  resolver_group_names group = Some names ->
  outcome (check_group fname (combined, groups_with_data) (key, group))
  = Ok (fold_left (fun s name => set_add name s) names combined,
        dict_set key (group_pair group) groups_with_data).
Proof.
  intros Hvalid.
  apply resolver_group_names_inv in Hvalid
    as (hosts & data & items & Hnorm & Hdata & Hitems & Hnames).
  unfold check_group, group_pair.
  rewrite outcome_bind, (unpack_group _ _ _ Hnorm), Hnorm, Hdata.
  cbn [negb]. rewrite outcome_bind, py_iter_outcome, Hitems.
  rewrite outcome_bind, (check_hosts_names _ _ _ _ Hnames).
  by outcome_steps.
Qed.

Lemma check_groups_valid (fname : string) (groups : dict)
    (names : list (list string)) (combined : list string)
    (groups_with_data : dict) :
  mapM (fun group => resolver_group_names (snd group)) groups = Some names ->
  NoDup (dict_keys groups) ->
  (forall k, k ∈ dict_keys groups -> k ∉ dict_keys groups_with_data) ->
  outcome (for_each groups (combined, groups_with_data) (check_group fname))
  = Ok (fold_left (fun s name => set_add name s) (concat names) combined,
        groups_with_data
        ++ map (fun group => (fst group, group_pair (snd group))) groups).
Proof.
  rewrite mapM_Some. intros Hnames. revert combined groups_with_data.
  induction Hnames as [|[key group] ns groups names Hgroup _ IH];
    intros combined gwd Hnd Hfresh.
  - simpl. by rewrite app_nil_r.
  - simpl in Hgroup, Hnd. apply NoDup_cons in Hnd as [Hkey Hnd].
    rewrite for_each_cons, outcome_bind.
    rewrite (check_group_valid _ _ _ _ _ _ Hgroup).
    rewrite dict_set_fresh by (apply Hfresh; left).
    rewrite IH; [|done|].
    + simpl. by rewrite fold_left_app, <- app_assoc.
    + intros k Hk. rewrite dict_keys_app, not_elem_of_app. split.
      * apply Hfresh. by right.
      * simpl. rewrite list_elem_of_singleton. intros ->. done.
Qed.

Lemma dict_keys_map_values {V W} (f : string * V -> W)
    (d : list (string * V)) :
  dict_keys (map (fun item => (fst item, f item)) d) = dict_keys d.
Proof. unfold dict_keys. rewrite map_map. by apply map_ext. Qed.

(** A valid mapping is turned into the inventory of its groups, each
    stored as a pair, and of the set of its host names. *)
Lemma make_inventory_from_func_valid (w : world) (f : py_function)
    (override_data : option dict) (obj : option nat) (groups : dict)
    (names : list string) :
  fn_call f = Ok (VDict obj groups) ->
  NoDup (dict_keys groups) ->
  resolver_host_names groups = Some names ->
  dict_mem "override_data" groups = false ->
  outcome (make_inventory_from_func w f override_data)
  = Ok (Inventory_init
          (VTuple [VList (map VStr (set_order w (ordered_union names)));
                   VDict None []])
          override_data
          (map (fun group => (fst group, group_pair (snd group))) groups)).
Proof.
  intros Hcall Hnd Hnames Hkeyword.
  unfold resolver_host_names in Hnames.
  destruct (mapM _ groups) as [ns|] eqn:Hns; [|discriminate].
  injection Hnames as <-.
  unfold make_inventory_from_func. rewrite Hcall. outcome_steps.
  rewrite (check_groups_valid _ _ _ [] [] Hns Hnd).
  2:{ intros k _. apply not_elem_of_nil. }
  cbn iota. rewrite set_add_fold_nil. cbn [app]. unfold Inventory_call.
  match goal with
  | |- context [dict_mem "override_data" ?g] =>
      assert (dict_mem "override_data" g = false) as ->; [|done]
  end.
  apply dict_mem_false. apply dict_mem_false in Hkeyword.
  by rewrite (dict_keys_map_values (fun group => group_pair (snd group))).
Qed.



Lemma for_each_app {A S} (xs ys : list A) (s : S) (body : S -> A -> M S) :
  outcome (for_each (xs ++ ys) s body)
  = match outcome (for_each xs s body) with
    | Ok s' => outcome (for_each ys s' body)
    | Raised e => Raised e
    end.
Proof.
  revert s. induction xs as [|x xs IH]; intros s; [done|].
  simpl app. rewrite !for_each_cons, !outcome_bind.
  destruct (outcome (body s x)); [apply IH|done].
Qed.

Lemma check_groups_return (fname : string) (groups : dict)
    (names : list (list string)) (state : list string * dict) :
  mapM (fun group => resolver_group_names (snd group)) groups = Some names ->
  exists state',
    outcome (for_each groups state (check_group fname)) = Ok state'.
Proof.
  rewrite mapM_Some. intros Hnames. revert state.
  induction Hnames as [|[key group] ns groups names Hgroup _ IH];
    intros [combined gwd].
  - by eexists.
  - rewrite for_each_cons, outcome_bind.
    rewrite (check_group_valid _ _ _ _ _ _ Hgroup). apply IH.
Qed.

(** The group at which the loop over the groups stops decides the outcome
    of make_inventory_from_func. *)
Lemma make_inventory_from_func_stops (w : world) (f : py_function)
    (override_data : option dict) (obj : option nat) (before after : dict)
    (key : string) (group : value) (names : list (list string)) (e : exn) :
  fn_call f = Ok (VDict obj (before ++ (key, group) :: after)) ->
  mapM (fun group => resolver_group_names (snd group)) before = Some names ->
  (forall state,
     outcome (check_group (fn_name f) state (key, group)) = Raised e) ->
  outcome (make_inventory_from_func w f override_data) = Raised e.
Proof.
  intros Hcall Hbefore Hstop.
  unfold make_inventory_from_func. rewrite Hcall. outcome_steps.
  rewrite for_each_app.
  destruct (check_groups_return (fn_name f) before names ([], []) Hbefore)
    as [state' ->].
  by rewrite for_each_cons, outcome_bind, Hstop.
Qed.

Lemma check_hosts_stops (fname : string) (good : list value) (bad : value)
    (rest : list value) (names combined : list string) (e : exn) :
  mapM host_name good = Some names ->
  (forall combined,
     outcome (if negb (ALLOWED_HOST_TYPES bad)
              then raise (Exn TypeError (msg_invalid_host fname bad))
              else host ← _get_any_tuple_first bad;
                   match host with
                   | VStr hostname => ret (set_add hostname combined)
                   | _ => raise (Exn TypeError
                                   (msg_invalid_host_name fname host))
                   end)
     = Raised e) ->
  outcome (check_hosts fname (good ++ bad :: rest) combined) = Raised e.
Proof.
  intros Hgood Hbad. unfold check_hosts. rewrite for_each_app.
  pose proof (check_hosts_names fname good names combined Hgood) as Hok.
  unfold check_hosts in Hok. rewrite Hok.
  by rewrite for_each_cons, outcome_bind, Hbad.
Qed.

(** C6, as stated, fails: a resolver that returns [{"web": None}] is in
    none of the four cases, and make_inventory_from_func raises the
    [TypeError] of the iteration over [None]; and the error for a return
    value that is not a mapping carries the name of the function but no
    value. *)
Lemma C6_counterexample :
  named_failure_case returns_none_group = false
  /\ outcome (make_inventory_from_func import_world returns_none_group None)
     = Raised (Exn TypeError [FValue VNone; FText " object is not iterable"])
  /\ outcome (make_inventory_from_func import_world returns_number None)
     = Raised (Exn TypeError (msg_not_a_dictionary "make_hosts"))
  /\ forallb is_text (msg_not_a_dictionary "make_hosts") = true.
Proof. repeat split; reflexivity. Qed.

(** C6, amended: make_inventory_from_func raises an error of its own in
    four cases. The resolver raises: [CliError] "Failed to load inventory
    function" with the name of the function and the message of the cause.
    The return value is not a mapping: [TypeError] with the name of the
    function. The data of a group is not a mapping: [TypeError] with the
    name of the function and the name of the group. A host is neither a
    string nor a tuple, or is a tuple whose first component is not a
    string: [TypeError] with the name of the function and the host, or its
    first component. The groups before the offending one are valid. And
    for a mapping with groups that are sequences of hosts or (sequence,
    mapping) pairs, hosts that are strings or tuples starting with a
    string, and no group named [override_data], no error is raised. *)
Theorem C6_function_errors (w : world) (f : py_function)
    (override_data : option dict) :
  (forall e,
     fn_call f = Raised e ->
     outcome (make_inventory_from_func w f override_data)
     = Raised (Exn CliError (msg_failed_to_load (fn_name f) (exn_msg e))))
  /\ (forall v,
        fn_call f = Ok v -> is_dict v = false ->
        outcome (make_inventory_from_func w f override_data)
        = Raised (Exn TypeError (msg_not_a_dictionary (fn_name f))))
  /\ (forall obj before key group after names hosts data,
        fn_call f = Ok (VDict obj (before ++ (key, group) :: after)) ->
        mapM (fun group => resolver_group_names (snd group)) before
          = Some names ->
        normalized_group group = Some (hosts, data) ->
        (is_dict data = false ->
         outcome (make_inventory_from_func w f override_data)
         = Raised (Exn TypeError (msg_non_dictionary_data (fn_name f) key)))
        /\ (forall good bad rest good_names,
              is_dict data = true ->
              iterable_items hosts = Some (good ++ bad :: rest) ->
              mapM host_name good = Some good_names ->
              (ALLOWED_HOST_TYPES bad = false ->
               outcome (make_inventory_from_func w f override_data)
               = Raised (Exn TypeError (msg_invalid_host (fn_name f) bad)))
              /\ (forall first others,
                    bad = VTuple (first :: others) ->
                    is_str first = false ->
                    outcome (make_inventory_from_func w f override_data)
                    = Raised (Exn TypeError
                                (msg_invalid_host_name (fn_name f) first)))))
  /\ (forall obj groups names,
        fn_call f = Ok (VDict obj groups) ->
        NoDup (dict_keys groups) ->
        resolver_host_names groups = Some names ->
        dict_mem "override_data" groups = false ->
        exists inventory,
          outcome (make_inventory_from_func w f override_data)
          = Ok inventory).
Proof.
  split; [|split; [|split]].
  - intros e Hcall. unfold make_inventory_from_func. rewrite Hcall.
    by outcome_steps.
  - intros v Hcall Hv. unfold make_inventory_from_func. rewrite Hcall.
    outcome_steps. by destruct v.
  - intros obj before key group after names hosts data Hcall Hbefore Hnorm.
    split.
    + intros Hdata.
      apply (make_inventory_from_func_stops w f override_data obj
               before after key group names); [done..|].
      intros [combined gwd]. unfold check_group.
      by rewrite outcome_bind, (unpack_group _ _ _ Hnorm), Hdata.
    + intros good bad rest good_names Hdata Hitems Hgood.
      assert (forall e,
                (forall combined,
                   outcome (check_hosts (fn_name f) (good ++ bad :: rest)
                              combined) = Raised e) ->
                outcome (make_inventory_from_func w f override_data)
                = Raised e) as Hstop.
      { intros e He.
        apply (make_inventory_from_func_stops w f override_data obj
                 before after key group names); [done..|].
        intros [combined gwd]. unfold check_group.
        rewrite outcome_bind, (unpack_group _ _ _ Hnorm), Hdata.
        cbn [negb]. rewrite outcome_bind, py_iter_outcome, Hitems.
        by rewrite outcome_bind, He. }
      split.
      * intros Hbad. apply Hstop. intros combined.
        apply (check_hosts_stops _ _ _ _ good_names); [done|].
        intros c. by rewrite Hbad.
      * intros first others -> Hfirst. apply Hstop. intros combined.
        apply (check_hosts_stops _ _ _ _ good_names); [done|].
        intros c. simpl. outcome_steps. by destruct first.
  - intros obj groups names Hcall Hnd Hnames Hkeyword. eexists.
    by apply (make_inventory_from_func_valid w f override_data obj groups
                names).
Qed.

Lemma C6_witness :
  outcome (make_inventory_from_func import_world raises_error None)
  = Raised (Exn CliError
              [FText "Failed to load inventory function: ";
               FText "make_hosts"; FText ": "; FText "no network"])
  /\ exists inventory,
       outcome (make_inventory_from_func import_world make_hosts None)
       = Ok inventory.
Proof.
  split.
  - refine (proj1 (C6_function_errors import_world raises_error None)
              _ eq_refl).
  - refine (proj2 (proj2 (proj2
              (C6_function_errors import_world make_hosts None)))
              None _ ["h1"; "h2"] eq_refl _ eq_refl eq_refl).
    apply NoDup_singleton.
Defined.

(** ** Group data *)

(** C2, on the code: the groups [web] and [db] of the inventory file share
    one data mapping. The data collected for [web] is [port = 80], the data
    collected for [db] is [port = 5432]; [data.update] writes both into the
    shared object, the second over the first, and the group [web] of the
    inventory ends with the port of [db]: its data is not overridden by the
    data collected under its own name. *)
Theorem C2_shared_data_overwritten :
  outcome (collect_group_data shared_data_world shared_data_fake
             (possible_group_data_folders shared_data_world
                "/srv/inventory.py" (Some "/srv") None))
    = Ok [("web", [("port", VInt 80)]); ("db", [("port", VInt 5432)])]
  /\ outcome (make_inventory_from_files shared_data_world "/srv/inventory.py"
                None (Some "/srv") None)
     = Ok (Inventory_init
             (VTuple [VList [VStr "web1"; VStr "db1"]; VDict None []])
             None
             [("web",
               VTuple [VList [VStr "web1"];
                       VDict (Some 0) [("ssh_user", VStr "deploy");
                                       ("port", VInt 5432)]]);
              ("db",
               VTuple [VList [VStr "db1"];
                       VDict (Some 0) [("ssh_user", VStr "deploy");
                                       ("port", VInt 5432)]]);
              ("inventory",
               VTuple [VList [VStr "web1"; VStr "db1"]; VDict None []])]).
Proof. split; reflexivity. Qed.

(** For the rest, the merge of group data is as C2 describes it. *)

Lemma dict_get_set {V} (k k' : string) (v : V) (d : list (string * V)) :
  dict_get k (dict_set k' v d)
  = if String.eqb k k' then Some v else dict_get k d.
Proof.
  induction d as [|[k0 v0] d IH]; simpl.
  - by destruct (String.eqb k k').
  - destruct (String.eqb_spec k' k0) as [->|Hne]; simpl.
    + by destruct (String.eqb k k0).
    + rewrite IH. destruct (String.eqb_spec k k0) as [->|]; [|done].
      destruct (String.eqb_spec k0 k'); [congruence|done].
Qed.

(** [d.update(other)]: the keys of [other] overwrite those of [d]. *)
Lemma dict_get_update {V} (k : string) (d other : list (string * V)) :
  NoDup (dict_keys other) ->
  dict_get k (dict_update d other)
  = match dict_get k other with
    | Some v => Some v
    | None => dict_get k d
    end.
Proof.
  unfold dict_update. revert d.
  induction other as [|[k1 v1] other IH]; intros d Hnd; simpl; [done|].
  simpl in Hnd. apply NoDup_cons in Hnd as [Hk1 Hnd].
  rewrite IH by done. rewrite dict_get_set.
  destruct (String.eqb_spec k k1) as [->|Hne]; [|done].
  apply dict_get_None in Hk1. by rewrite Hk1.
Qed.

(** The folders are scanned in order, and what a later folder holds for a
    group is merged over what the earlier ones held. *)
Lemma collect_group_data_last (w : world) (ctx : Inventory)
    (folders : list string) (folder : string) :
  outcome (collect_group_data w ctx (folders ++ [folder]))
  = match outcome (collect_group_data w ctx folders) with
    | Ok group_data =>
        match outcome (_get_group_data w (Some ctx) folder) with
        | Ok found => Ok (fold_left merge_group_data found group_data)
        | Raised e => Raised e
        end
    | Raised e => Raised e
    end.
Proof.
  unfold collect_group_data. rewrite for_each_app.
  destruct (outcome (for_each folders _ _)) as [group_data|]; [|done].
  rewrite for_each_cons, outcome_bind, outcome_bind.
  destruct (_get_group_data w (Some ctx) folder) as [log [found|e]];
    cbn [outcome snd]; [|done].
  rewrite (for_each_fold merge_group_data).
  - done.
  - intros gd [name data] _. by outcome_steps.
Qed.

Lemma dict_get_app_fresh {V} (k : string) (v : V)
    (d1 d2 : list (string * V)) :
  k ∉ dict_keys d1 -> dict_get k (d1 ++ (k, v) :: d2) = Some v.
Proof.
  induction d1 as [|[k' v'] d1 IH]; simpl.
  - intros _. by rewrite String.eqb_refl.
  - rewrite not_elem_of_cons. intros [Hne Hd1].
    destruct (String.eqb_spec k k'); [done|]. by apply IH.
Qed.

Lemma dict_set_app_fresh {V} (k : string) (v v' : V)
    (d1 d2 : list (string * V)) :
  k ∉ dict_keys d1 ->
  dict_set k v' (d1 ++ (k, v) :: d2) = d1 ++ (k, v') :: d2.
Proof.
  induction d1 as [|[k0 v0] d1 IH]; simpl.
  - intros _. by rewrite String.eqb_refl.
  - rewrite not_elem_of_cons. intros [Hne Hd1].
    destruct (String.eqb_spec k k0); [done|]. by rewrite IH.
Qed.

Lemma dict_get_remove_ne {V} (k k' : string) (d : list (string * V)) :
  k ≠ k' -> dict_get k (dict_remove k' d) = dict_get k d.
Proof.
  intros Hne. induction d as [|[k0 v0] d IH]; simpl; [done|].
  destruct (String.eqb_spec k' k0) as [->|Hne'].
  - destruct (String.eqb_spec k k0); [done|done].
  - simpl. by rewrite IH.
Qed.

Lemma dict_remove_filter {V} (k : string) (d : list (string * V)) :
  NoDup (dict_keys d) ->
  dict_remove k d = filter (fun item => fst item ≠ k) d.
Proof.
  induction d as [|[k' v'] d IH]; simpl; [done|].
  intros Hnd. apply NoDup_cons in Hnd as [Hk' Hnd].
  destruct (String.eqb_spec k k') as [->|Hne].
  - rewrite filter_cons_False by (simpl; tauto).
    symmetry. apply filter_all. intros [k0 v0] Hin. simpl. intros ->.
    apply Hk'. apply list_elem_of_fmap. by exists (k', v0).
  - rewrite filter_cons_True by (simpl; congruence). by rewrite IH.
Qed.

Lemma unshared_group_normalized (group hosts : value) (items : dict) :
  unshared_group group = Some (hosts, items) ->
  normalized_group group = Some (hosts, VDict None items).
Proof.
  unfold unshared_group.
  destruct (normalized_group group) as [[h d]|]; [|discriminate].
  destruct d as [| | | | |[i|] d|]; try discriminate. by intros [= -> ->].
Qed.

(** One turn of the loop of lines 325-335, for a group whose data mapping
    is not shared. *)
Lemma attach_group_data_step_unshared (before after : dict) (name : string)
    (group hosts : value) (items : dict)
    (collected group_data : list (string * dict)) :
  name ∉ dict_keys before ->
  unshared_group group = Some (hosts, items) ->
  dict_get name collected = dict_get name group_data ->
  outcome (attach_group_data_step
             (before ++ (name, group) :: after, collected) name)
  = Ok (before ++ (name, merged_group group_data name group) :: after,
        dict_remove name collected).
Proof.
  intros Hfresh Hgroup Hget. unfold attach_group_data_step, merged_group.
  rewrite dict_get_app_fresh by done. rewrite Hgroup.
  apply unshared_group_normalized in Hgroup.
  rewrite outcome_bind, (unpack_group _ _ _ Hgroup). cbn iota.
  rewrite <- Hget.
  destruct (dict_get name collected) as [data|] eqn:Hdata.
  - outcome_steps. by rewrite dict_set_app_fresh.
  - outcome_steps. rewrite dict_set_app_fresh by done.
    rewrite dict_remove_absent; [done|]. by apply dict_get_None.
Qed.

Lemma attach_group_data_loop (before groups : dict)
    (collected group_data : list (string * dict)) :
  NoDup (dict_keys (before ++ groups)) ->
  NoDup (dict_keys collected) ->
  (forall name group, (name, group) ∈ groups ->
     is_Some (unshared_group group)) ->
  (forall name, name ∈ dict_keys groups ->
     dict_get name collected = dict_get name group_data) ->
  outcome (for_each (dict_keys groups) (before ++ groups, collected)
             attach_group_data_step)
  = Ok (before
        ++ map (fun g => (fst g, merged_group group_data (fst g) (snd g)))
             groups,
        filter (fun item => fst item ∉ dict_keys groups) collected).
Proof.
  revert before collected.
  induction groups as [|[name group] groups IH];
    intros before collected Hnd Hcollected Hunshared Hget.
  - simpl. f_equal. f_equal. symmetry. apply filter_all.
    intros item _. apply not_elem_of_nil.
  - destruct (Hunshared name group) as [[hosts items] Hgroup]; [left|].
    assert ((name ∉ dict_keys before) /\ (name ∉ dict_keys groups))
      as [Hb Hg].
    { rewrite dict_keys_app in Hnd. simpl in Hnd.
      apply NoDup_app in Hnd as (_ & Hdisj & Hnd).
      apply NoDup_cons in Hnd as [Hname _]. split; [|done].
      intros Hin. apply (Hdisj _ Hin). left. }
    simpl dict_keys. rewrite for_each_cons, outcome_bind.
    rewrite (attach_group_data_step_unshared before groups name group hosts
               items collected group_data Hb Hgroup) by (apply Hget; left).
    cbn iota.
    change (before ++ (name, merged_group group_data name group) :: groups)
      with (before ++ [(name, merged_group group_data name group)] ++ groups).
    rewrite app_assoc. rewrite IH.
    + rewrite <- app_assoc. simpl. do 2 f_equal.
      rewrite dict_remove_filter by done. rewrite list_filter_filter.
      apply list_filter_iff. intros [k d]. simpl.
      rewrite not_elem_of_cons. tauto.
    + rewrite <- app_assoc. simpl.
      rewrite dict_keys_app in *. simpl in *. done.
    + by apply dict_remove_NoDup.
    + intros n g Hin. apply (Hunshared n g). by right.
    + intros n Hn. rewrite dict_get_remove_ne.
      * apply Hget. by right.
      * intros ->. done.
Qed.

(** When no data mapping is shared, every group ends as the pair of its
    hosts and of its own data overridden by the data collected under its
    name, and the collected data of the other names is left. *)
Lemma attach_group_data_unshared (groups : dict)
    (group_data : list (string * dict)) :
  NoDup (dict_keys groups) ->
  NoDup (dict_keys group_data) ->
  (forall name group, (name, group) ∈ groups ->
     is_Some (unshared_group group)) ->
  outcome (attach_group_data groups group_data)
  = Ok (map (fun g => (fst g, merged_group group_data (fst g) (snd g)))
          groups,
        filter (fun item => fst item ∉ dict_keys groups) group_data).
Proof.
  intros Hnd Hgd Hunshared.
  exact (attach_group_data_loop [] groups group_data group_data
           Hnd Hgd Hunshared (fun _ _ => eq_refl)).
Qed.

(** * Further properties of the module *)

(** ** Host names *)

(** X1: _get_ssh_alias never raises, and an alias it returns is the
    [hostname] option of the SSH configuration for the name and differs
    from the name itself. *)
Theorem X1_ssh_alias_differs (w : world) (host : string) :
  (exists found, outcome (_get_ssh_alias w host) = Ok found)
  /\ forall alias,
       outcome (_get_ssh_alias w host) = Ok (Some alias) ->
       alias ≠ host
       /\ exists lookup,
            get_ssh_config w = Some lookup
            /\ dict_get "hostname" (lookup host) = Some alias.
Proof.
  unfold _get_ssh_alias. outcome_steps.
  destruct (get_ssh_config w) as [lookup|]; [|outcome_steps; split; [eauto|done]].
  destruct (dict_get "hostname" (lookup host)) as [alias|] eqn:Hget;
    [|split; [eauto|done]].
  destruct (String.eqb_spec host alias) as [->|Hne]; [split; [eauto|done]|].
  split; [eauto|]. intros alias' [= <-]. split; [congruence|eauto].
Qed.

Lemma X1_witness :
  "unknown.invalid" ≠ "not-a-path-or-host"
  /\ exists lookup,
       get_ssh_config isolated_world = Some lookup
       /\ dict_get "hostname" (lookup "not-a-path-or-host")
          = Some "unknown.invalid".
Proof.
  exact (proj2 (X1_ssh_alias_differs isolated_world "not-a-path-or-host")
           "unknown.invalid" eq_refl).
Defined.



(** ** The definition-file loader *)

(** X3: a binding whose name starts with an underscore is never a group and
    its value is not looked at: the classification returns [False] without
    raising, whatever the value, without a warning, and without any log at
    all for a name that starts with two underscores. *)
Theorem X3_private_names_skipped (key : string) (value : value) :
  Str.startswith "_" key = true ->
  outcome (_is_inventory_group key value) = Ok false
  /\ List.filter is_warning (events (_is_inventory_group key value)) = []
  /\ (Str.startswith "__" key = true ->
      events (_is_inventory_group key value) = []).
Proof.
  intros Hkey. unfold _is_inventory_group. rewrite Hkey.
  by destruct (Str.startswith "__" key).
Qed.

Lemma X3_witness :
  outcome (_is_inventory_group "_ports" (VTuple [VInt 80; VInt 443]))
    = Ok false
  /\ outcome (_is_inventory_group "__empty" (VTuple [])) = Ok false.
Proof.
  split.
  - exact (proj1 (X3_private_names_skipped "_ports"
                    (VTuple [VInt 80; VInt 443]) eq_refl)).
  - exact (proj1 (X3_private_names_skipped "__empty" (VTuple []) eq_refl)).
Defined.

Lemma for_each_invariant_in {A S} (P : S -> Prop) (body : S -> A -> M S)
    (xs : list A) (s r : S) :
  P s ->
  (forall s x s', x ∈ xs -> P s -> outcome (body s x) = Ok s' -> P s') ->
  outcome (for_each xs s body) = Ok r ->
  P r.
Proof.
  revert s. induction xs as [|x xs IH]; intros s Hs Hbody.
  - by intros [= <-].
  - rewrite for_each_cons. intros Hr.
    apply outcome_bind_inv in Hr as (s' & Hs' & Hr).
    apply (IH s'); [|by intros; eapply Hbody; [right|..]|done].
    eapply Hbody; [left|done..].
Qed.

Lemma dict_set_elem {V} (k k' : string) (v v' : V) (d : list (string * V)) :
  (k, v) ∈ dict_set k' v' d -> (k, v) = (k', v') \/ (k, v) ∈ d.
Proof.
  induction d as [|[k0 v0] d IH]; simpl.
  - rewrite list_elem_of_singleton. tauto.
  - destruct (String.eqb_spec k' k0) as [->|Hne];
      rewrite !elem_of_cons; [tauto|]. intros [?|?]; tauto.
Qed.

(** What a comprehension keeps are items it was given, for which the
    condition returned [True], under distinct keys. *)
Lemma dict_comprehension_kept (keep : string -> value -> M bool)
    (items kept : dict) :
  outcome (dict_comprehension keep items) = Ok kept ->
  NoDup (dict_keys kept)
  /\ forall k v, (k, v) ∈ kept ->
       (k, v) ∈ items /\ outcome (keep k v) = Ok true.
Proof.
  unfold dict_comprehension.
  apply (for_each_invariant_in
           (fun kept => NoDup (dict_keys kept)
                        /\ forall k v, (k, v) ∈ kept ->
                             (k, v) ∈ items /\ outcome (keep k v) = Ok true)).
  - split; [constructor|]. intros k v Hin. by apply elem_of_nil in Hin.
  - intros acc [k0 v0] acc' Hin [Hnd Hacc] Hbody.
    apply outcome_bind_inv in Hbody as (b & Hkeep & Hbody).
    simpl in *. injection Hbody as <-. destruct b; [|done]. split.
    + by apply dict_set_NoDup.
    + intros k v Hkv. apply dict_set_elem in Hkv as [[= -> ->]|Hkv]; auto.
Qed.

(** X4: whatever the file binds, the groups that the loader returns have
    distinct names, none of which starts with an underscore, and each is a
    binding of the file with its value as the file gave it, a list or a
    tuple that the classification accepted. *)
Theorem X4_loader_returns_bindings (w : world) (file : string)
    (groups : dict) :
  outcome (_get_groups_from_filename w file) = Ok groups ->
  exists attrs,
    exec_file w None file = Ok attrs
    /\ NoDup (dict_keys groups)
    /\ forall k v, (k, v) ∈ groups ->
         (k, v) ∈ attrs
         /\ Str.startswith "_" k = false
         /\ loader_accepts k v = true.
Proof.
  unfold _get_groups_from_filename, call_exec_file. intros H.
  apply outcome_bind_inv in H as (attrs & Hexec & Hkept).
  rewrite outcome_bind, outcome_emit in Hexec.
  destruct (exec_file w None file) as [attrs'|e]; [|discriminate].
  injection Hexec as ->. exists attrs. split; [done|].
  apply dict_comprehension_kept in Hkept as [Hnd Hkept].
  split; [done|]. intros k v Hin.
  destruct (Hkept k v Hin) as [Hattrs Haccept].
  apply is_inventory_group_accepts in Haccept.
  split; [done|]. split; [|done].
  unfold loader_accepts in Haccept.
  by destruct (Str.startswith "_" k).
Qed.

Lemma X4_witness :
  exists attrs,
    exec_file sample_world None "inventory.py" = Ok attrs
    /\ NoDup (dict_keys sample_loaded)
    /\ forall k v, (k, v) ∈ sample_loaded ->
         (k, v) ∈ attrs
         /\ Str.startswith "_" k = false
         /\ loader_accepts k v = true.
Proof.
  exact (X4_loader_returns_bindings sample_world "inventory.py"
           sample_loaded eq_refl).
Defined.

(** X5: when the inventory file exists and its execution fails, the
    exception leaves make_inventory_from_files and make_inventory
    unchanged, and nothing else has happened: no other file was executed,
    nothing was imported or looked up, nothing was logged. *)
Theorem X5_load_failure_propagates (w : world) (file : string)
    (override_data : option dict) (cwd : option string)
    (dirs : option (list string)) (e : exn) :
  path_exists w file = true ->
  exec_file w None file = Raised e ->
  make_inventory_from_files w file override_data cwd dirs
    = ([ExecFile file], Raised e)
  /\ make_inventory w file override_data cwd dirs
     = ([ExecFile file], Raised e).
Proof.
  intros Hexists Hexec.
  assert (make_inventory_from_files w file override_data cwd dirs
          = ([ExecFile file], Raised e)) as Hfiles.
  { unfold make_inventory_from_files, initial_groups,
      _get_groups_from_filename, call_exec_file.
    rewrite Hexists, Hexec. reflexivity. }
  split; [done|].
  unfold make_inventory, is_path_or_host_list_or_connector.
  rewrite Hexists. cbn [orb negb]. cbn iota. by rewrite bind_ret.
Qed.

Lemma X5_witness :
  make_inventory broken_file_world "broken.py" None None None
  = ([ExecFile "broken.py"], Raised syntax_error).
Proof.
  exact (proj2 (X5_load_failure_propagates broken_file_world "broken.py"
                  None None None syntax_error eq_refl eq_refl)).
Defined.

(** ** The scan of a group data folder *)

Lemma emits_only_for_each_in {A S} (P : event -> Prop) (xs : list A) (s : S)
    (body : S -> A -> M S) :
  (forall s x, x ∈ xs -> emits_only P (body s x)) ->
  emits_only P (for_each xs s body).
Proof.
  revert s. induction xs as [|x xs IH]; intros s Hbody.
  - apply emits_only_ret.
  - rewrite for_each_cons. apply emits_only_bind; [apply Hbody; left|].
    intros s'. apply IH. intros s'' y Hy. apply Hbody. by right.
Qed.

Lemma py_contains_silent (P : event -> Prop) (x container : value) :
  emits_only P (py_contains x container).
Proof. unfold py_contains. emits_only_auto. Qed.

Lemma dict_comprehension_emits (P : event -> Prop)
    (keep : string -> value -> M bool) (items : dict) :
  (forall k v, emits_only P (keep k v)) ->
  emits_only P (dict_comprehension keep items).
Proof. intros H. unfold dict_comprehension. emits_only_auto. apply H. Qed.

(** X6: scanning a path for group data executes nothing but the path
    itself, when it is a file, or the direct entries of the directory, and
    of these only the names that end in [.py]; a path that does not exist
    executes nothing. Nothing is imported and no name is looked up. *)
Theorem X6_scan_executes_python_entries (w : world) (ctx : option Inventory)
    (path : string) :
  emits_only (group_data_event w path) (_get_group_data w ctx path).
Proof.
  unfold _get_group_data.
  apply emits_only_bind; [by apply emits_only_emit|intros _].
  destruct (path_exists w path) eqn:Hexists; [|apply emits_only_ret].
  apply emits_only_for_each_in. intros group_data file Hfile.
  destruct (Str.endswith ".py" file) eqn:Hpy; [|apply emits_only_ret].
  cbn [negb].
  apply emits_only_bind; [by apply emits_only_emit|intros _].
  apply emits_only_bind.
  - unfold call_exec_file.
    apply emits_only_bind; [|intros _; emits_only_auto].
    apply emits_only_emit. split; [done|]. split; [done|].
    destruct (path_isfile w path).
    + left. by apply list_elem_of_singleton in Hfile.
    + right. apply list_elem_of_fmap in Hfile as (entry & -> & Hentry).
      by exists entry.
  - intros attrs. apply emits_only_bind; [|intros ?; apply emits_only_ret].
    apply dict_comprehension_emits. intros k v.
    apply emits_only_bind; [apply py_contains_silent|].
    intros ?. apply emits_only_ret.
Qed.

(** What a scan returns: distinct group names, and under each the public
    bindings of one executed file. *)
Lemma get_group_data_public_bindings (w : world) (ctx : option Inventory)
    (path : string) (group_data : list (string * dict)) :
  outcome (_get_group_data w ctx path) = Ok group_data ->
  NoDup (dict_keys group_data)
  /\ forall group data, (group, data) ∈ group_data ->
       NoDup (dict_keys data)
       /\ (forall key, key ∈ dict_keys data ->
             Str.startswith "__" key = false)
       /\ exists file attrs,
            Str.endswith ".py" file = true
            /\ group = Str.drop_last 3 (Path.basename file)
            /\ exec_file w ctx file = Ok attrs
            /\ forall key v, (key, v) ∈ data -> (key, v) ∈ attrs.
Proof.
  unfold _get_group_data. intros H.
  apply outcome_bind_inv in H as (_ & _ & H).
  destruct (path_exists w path).
  2:{ injection H as <-. split; [constructor|].
      intros group data Hin. by apply elem_of_nil in Hin. }
  revert H.
  apply (for_each_invariant
           (fun gd : list (string * dict) =>
              NoDup (dict_keys gd)
              /\ forall group data, (group, data) ∈ gd ->
                   NoDup (dict_keys data)
                   /\ (forall key, key ∈ dict_keys data ->
                         Str.startswith "__" key = false)
                   /\ exists file attrs,
                        Str.endswith ".py" file = true
                        /\ group = Str.drop_last 3 (Path.basename file)
                        /\ exec_file w ctx file = Ok attrs
                        /\ forall key v, (key, v) ∈ data -> (key, v) ∈ attrs)).
  - split; [constructor|]. intros group data Hin.
    by apply elem_of_nil in Hin.
  - intros gd file gd' [Hnd Hgd] Hbody.
    destruct (Str.endswith ".py" file) eqn:Hpy; cbn [negb] in Hbody.
    2:{ by injection Hbody as <-. }
    apply outcome_bind_inv in Hbody as (_ & _ & Hbody).
    apply outcome_bind_inv in Hbody as (attrs & Hexec & Hbody).
    apply outcome_bind_inv in Hbody as (data & Hdata & Hbody).
    injection Hbody as <-.
    unfold call_exec_file in Hexec.
    rewrite outcome_bind, outcome_emit in Hexec.
    destruct (exec_file w ctx file) as [attrs'|] eqn:Hfile; [|discriminate].
    injection Hexec as ->.
    apply dict_comprehension_kept in Hdata as [Hdnd Hkept].
    split; [by apply dict_set_NoDup|].
    intros group data' Hin.
    apply dict_set_elem in Hin as [[= -> ->]|Hin]; [|by apply Hgd].
    split; [done|]. split.
    + intros key Hkey. apply list_elem_of_fmap in Hkey as ([k v] & -> & Hkv).
      destruct (Hkept k v Hkv) as [_ Hkeep]. cbn [fst].
      destruct (Str.startswith "__" k) eqn:Hprivate; [|done].
      apply outcome_bind_inv in Hkeep as (listed & _ & Hkeep).
      rewrite outcome_ret in Hkeep. cbn [negb] in Hkeep.
      rewrite andb_false_r in Hkeep. discriminate.
    + exists file, attrs. repeat split; [done..|].
      intros key v Hkv. by apply Hkept.
Qed.


(** X7: the mapping that a scan returns has one entry for each group name;
    the name is the base name of an executed [.py] file without its
    extension; the data under it are bindings of that file, under distinct
    keys, none of which starts with two underscores. *)
Theorem X7_scan_returns_public_bindings (w : world) (ctx : option Inventory)
    (path : string) (group_data : list (string * dict)) :
  outcome (_get_group_data w ctx path) = Ok group_data ->
  NoDup (dict_keys group_data)
  /\ forall group data, (group, data) ∈ group_data ->
       NoDup (dict_keys data)
       /\ (forall key, key ∈ dict_keys data ->
             Str.startswith "__" key = false)
       /\ exists file attrs,
            Str.endswith ".py" file = true
            /\ group = Str.drop_last 3 (Path.basename file)
            /\ exec_file w ctx file = Ok attrs
            /\ forall key v, (key, v) ∈ data -> (key, v) ∈ attrs.
Proof. apply get_group_data_public_bindings. Qed.

Lemma X7_witness :
  NoDup (dict_keys [("all", [("ssh_user", VStr "deploy")]);
                    ("web", [("port", VInt 80)])])
  /\ forall group data,
       (group, data) ∈ [("all", [("ssh_user", VStr "deploy")]);
                        ("web", [("port", VInt 80)])] ->
       NoDup (dict_keys data)
       /\ (forall key, key ∈ dict_keys data ->
             Str.startswith "__" key = false)
       /\ exists file attrs,
            Str.endswith ".py" file = true
            /\ group = Str.drop_last 3 (Path.basename file)
            /\ exec_file host_list_world None file = Ok attrs
            /\ forall key v, (key, v) ∈ data -> (key, v) ∈ attrs.
Proof.
  exact (X7_scan_returns_public_bindings host_list_world None
           "/srv/group_data" _ eq_refl).
Defined.

Lemma py_in_list_keys (attrs : dict) (k : string) (v : value) :
  (k, v) ∈ attrs -> py_in_list (VStr k) (map VStr (dict_keys attrs)) = true.
Proof.
  intros Hin. rewrite py_in_list_names. apply existsb_exists.
  exists k. split; [|apply String.eqb_refl].
  apply list_elem_of_In, list_elem_of_fmap. by exists (k, v).
Qed.

Lemma get_group_data_of_file (w : world) (ctx : option Inventory)
    (file : string) (attrs : dict) :
  path_exists w file = true ->
  path_isfile w file = true ->
  Str.endswith ".py" file = true ->
  exec_file w ctx file = Ok attrs ->
  outcome (_get_group_data w ctx file)
  = match outcome
            (dict_comprehension
               (fun (key : string) (_ : value) =>
                  listed ← py_contains (VStr key)
                             match dict_get "__all__" attrs with
                             | Some exported => exported
                             | None => VList (map VStr (dict_keys attrs))
                             end;
                  ret (listed && negb (Str.startswith "__" key)))
               attrs)
    with
    | Ok data => Ok [(Str.drop_last 3 (Path.basename file), data)]
    | Raised e => Raised e
    end.
Proof.
  intros Hexists Hisfile Hpy Hexec. unfold _get_group_data.
  rewrite outcome_bind, outcome_logger_debug, Hexists, Hisfile.
  rewrite for_each_cons, outcome_bind, Hpy. cbn [negb].
  rewrite outcome_bind, outcome_logger_debug, outcome_bind.
  unfold call_exec_file. rewrite outcome_bind, outcome_emit, Hexec.
  rewrite outcome_ret, outcome_bind.
  destruct (dict_comprehension _ attrs) as [log [data|e]]; reflexivity.
Qed.

(** X8: the data of one group data file. With an export list [__all__]
    that is a list, the bindings whose names are listed are kept, and only
    these; without one, all bindings are kept; in both cases without the
    names that start with two underscores, and in the order of the file.
    An [__all__] that cannot be searched (a number, [None]) makes the scan
    raise [TypeError]. *)
Theorem X8_export_list_filters (w : world) (ctx : option Inventory)
    (file : string) (attrs : dict) :
  path_exists w file = true ->
  path_isfile w file = true ->
  Str.endswith ".py" file = true ->
  exec_file w ctx file = Ok attrs ->
  NoDup (dict_keys attrs) ->
  (forall exported,
     dict_get "__all__" attrs = Some (VList exported) ->
     outcome (_get_group_data w ctx file)
     = Ok [(Str.drop_last 3 (Path.basename file),
            List.filter
              (fun kv => py_in_list (VStr (fst kv)) exported
                         && negb (Str.startswith "__" (fst kv)))
              attrs)])
  /\ (dict_get "__all__" attrs = None ->
      outcome (_get_group_data w ctx file)
      = Ok [(Str.drop_last 3 (Path.basename file),
             List.filter (fun kv => negb (Str.startswith "__" (fst kv)))
               attrs)])
  /\ (forall exported,
        dict_get "__all__" attrs = Some exported ->
        iterable_items exported = None ->
        outcome (_get_group_data w ctx file)
        = Raised (Exn TypeError
                    [FText "argument of type "; FValue exported;
                     FText " is not iterable"])).
Proof.
  intros Hexists Hisfile Hpy Hexec Hnd.
  rewrite (get_group_data_of_file w ctx file attrs) by done.
  split; [|split].
  - intros exported Hall. rewrite Hall.
    rewrite (dict_comprehension_filter _
               (fun k _ => py_in_list (VStr k) exported
                           && negb (Str.startswith "__" k))); [done..|].
    intros k v _. by rewrite outcome_bind.
  - intros Hall. rewrite Hall.
    rewrite (dict_comprehension_filter _
               (fun k _ => negb (Str.startswith "__" k))); [done..|].
    intros k v Hin. rewrite outcome_bind. cbn [py_contains outcome ret snd].
    by rewrite (py_in_list_keys attrs k v Hin).
  - intros exported Hall Hiter. rewrite Hall.
    destruct attrs as [|[k0 v0] attrs]; [discriminate|].
    unfold dict_comprehension.
    rewrite for_each_cons, outcome_bind, outcome_bind. cbn [fst].
    by destruct exported.
Qed.

Lemma X8_witness :
  outcome (_get_group_data export_world None "group_data/web.py")
    = Ok [("web", [("port", VInt 80)])]
  /\ outcome (_get_group_data export_world None "group_data/db.py")
     = Ok [("db", [("port", VInt 5432); ("_timeout", VInt 3)])].
Proof.
  split.
  - refine (proj1 (X8_export_list_filters export_world None
                     "group_data/web.py" web_data_attrs
                     eq_refl eq_refl eq_refl eq_refl _)
              [VStr "port"] eq_refl).
    apply (bool_decide_unpack _). vm_compute. exact I.
  - refine (proj1 (proj2 (X8_export_list_filters export_world None
                            "group_data/db.py" db_data_attrs
                            eq_refl eq_refl eq_refl eq_refl _))
              eq_refl).
    apply (bool_decide_unpack _). vm_compute. exact I.
Defined.

(** ** The collection of group data *)

Lemma merge_group_data_lookup (found acc : list (string * dict))
    (group : string) :
  NoDup (dict_keys found) ->
  dict_get group (fold_left merge_group_data found acc)
  = match dict_get group found with
    | Some data => Some (dict_update (default [] (dict_get group acc)) data)
    | None => dict_get group acc
    end.
Proof.
  revert acc. induction found as [|[g d] found IH]; intros acc Hnd; [done|].
  simpl in Hnd. apply NoDup_cons in Hnd as [Hg Hnd].
  cbn [fold_left]. rewrite IH by done.
  unfold merge_group_data. cbn [fst snd dict_get].
  rewrite dict_get_set.
  destruct (String.eqb_spec group g) as [->|Hne]; [|done].
  apply dict_get_None in Hg. by rewrite Hg.
Qed.

(** X9: scanning one more folder leaves the data of the groups that the
    folder does not mention as it was; for a group that it mentions, each
    key that the folder defines takes the value of the folder, and every
    other key keeps the value collected before. *)
Theorem X9_later_folder_overrides (w : world) (ctx : Inventory)
    (folders : list string) (folder : string)
    (before found : list (string * dict)) :
  outcome (collect_group_data w ctx folders) = Ok before ->
  outcome (_get_group_data w (Some ctx) folder) = Ok found ->
  exists after,
    outcome (collect_group_data w ctx (folders ++ [folder])) = Ok after
    /\ (forall group,
          dict_get group found = None ->
          dict_get group after = dict_get group before)
    /\ (forall group data,
          dict_get group found = Some data ->
          exists merged,
            dict_get group after = Some merged
            /\ forall key,
                 dict_get key merged
                 = match dict_get key data with
                   | Some v => Some v
                   | None =>
                       dict_get key (default [] (dict_get group before))
                   end).
Proof.
  intros Hbefore Hfound.
  destruct (get_group_data_public_bindings _ _ _ _ Hfound) as [Hnd Hdata].
  exists (fold_left merge_group_data found before).
  rewrite collect_group_data_last, Hbefore, Hfound. split; [done|]. split.
  - intros group Hnone. by rewrite merge_group_data_lookup, Hnone.
  - intros group data Hsome. eexists.
    rewrite merge_group_data_lookup, Hsome by done. split; [done|].
    intros key. apply dict_get_update.
    apply dict_get_Some_elem in Hsome. by apply (Hdata group data).
Qed.

Lemma X9_witness :
  exists after,
    outcome (collect_group_data layered_world Inventory_empty
               (["/srv/group_data"] ++ ["/srv/inventories/group_data"]))
      = Ok after
    /\ (forall group,
          dict_get group [("web", [("port", VInt 8080)])] = None ->
          dict_get group after
          = dict_get group
              [("web", [("port", VInt 80); ("ssh_user", VStr "deploy")])])
    /\ (forall group data,
          dict_get group [("web", [("port", VInt 8080)])] = Some data ->
          exists merged,
            dict_get group after = Some merged
            /\ forall key,
                 dict_get key merged
                 = match dict_get key data with
                   | Some v => Some v
                   | None =>
                       dict_get key
                         (default []
                            (dict_get group
                               [("web", [("port", VInt 80);
                                         ("ssh_user", VStr "deploy")])]))
                   end).
Proof.
  exact (X9_later_folder_overrides layered_world Inventory_empty
           ["/srv/group_data"] "/srv/inventories/group_data"
           _ _ eq_refl eq_refl).
Defined.

Lemma dict_update_NoDup {V} (d other : list (string * V)) :
  NoDup (dict_keys d) -> NoDup (dict_keys (dict_update d other)).
Proof.
  unfold dict_update. revert d.
  induction other as [|[k v] other IH]; intros d Hd; [done|].
  simpl. apply IH. by apply dict_set_NoDup.
Qed.

(** The collected group data: one entry for each group name, and distinct
    keys under each. *)
Lemma collect_group_data_distinct (w : world) (ctx : Inventory)
    (folders : list string) (group_data : list (string * dict)) :
  outcome (collect_group_data w ctx folders) = Ok group_data ->
  NoDup (dict_keys group_data)
  /\ forall group data, (group, data) ∈ group_data -> NoDup (dict_keys data).
Proof.
  intros H. split; [by apply (collect_group_data_NoDup w ctx folders)|].
  revert H. unfold collect_group_data.
  apply (for_each_invariant
           (fun gd : list (string * dict) =>
              forall group data, (group, data) ∈ gd ->
                NoDup (dict_keys data))).
  { intros group data Hin. by apply elem_of_nil in Hin. }
  intros gd folder gd' Hgd Hstep.
  apply outcome_bind_inv in Hstep as (found & _ & Hstep).
  revert Hstep.
  apply (for_each_invariant
           (fun gd : list (string * dict) =>
              forall group data, (group, data) ∈ gd ->
                NoDup (dict_keys data))); [done|].
  intros gd1 [name data] gd2 Hgd1 Hbody.
  rewrite outcome_bind in Hbody. simpl in Hbody. injection Hbody as <-.
  intros group data' Hin.
  apply dict_set_elem in Hin as [[= -> ->]|Hin]; [|by apply (Hgd1 group)].
  apply dict_update_NoDup.
  destruct (dict_get name gd1) as [current|] eqn:Hcur; simpl; [|constructor].
  apply dict_get_Some_elem in Hcur. by apply (Hgd1 name).
Qed.

Lemma dict_get_map_values {V W} (f : string -> V -> W) (k : string) (v : V)
    (d : list (string * V)) :
  NoDup (dict_keys d) ->
  (k, v) ∈ d ->
  dict_get k (map (fun item => (fst item, f (fst item) (snd item))) d)
  = Some (f k v).
Proof.
  induction d as [|[k0 v0] d IH]; intros Hnd Hin.
  - by apply elem_of_nil in Hin.
  - simpl in Hnd. apply NoDup_cons in Hnd as [Hk0 Hnd]. simpl.
    apply elem_of_cons in Hin as [[= -> ->]|Hin].
    + by rewrite String.eqb_refl.
    + destruct (String.eqb_spec k k0) as [->|Hne]; [|by apply IH].
      destruct Hk0. apply list_elem_of_fmap. by exists (k0, v).
Qed.

(** X10: when no group shares its data mapping with another reference, the
    loop that attaches the collected data keeps the groups in their order,
    turns each into the pair of its hosts and of its data, in which every
    key collected under the name of the group has the collected value and
    every other key the value that the group had; what is left of the
    collected data are the entries whose names are not groups. *)
Theorem X10_unshared_groups_take_their_data (w : world) (ctx : Inventory)
    (folders : list string) (groups : dict)
    (group_data : list (string * dict)) :
  outcome (collect_group_data w ctx folders) = Ok group_data ->
  NoDup (dict_keys groups) ->
  (forall name group, (name, group) ∈ groups ->
     is_Some (unshared_group group)) ->
  exists attached,
    outcome (attach_group_data groups group_data)
    = Ok (attached,
          filter (fun item => fst item ∉ dict_keys groups) group_data)
    /\ dict_keys attached = dict_keys groups
    /\ forall name group hosts items,
         (name, group) ∈ groups ->
         unshared_group group = Some (hosts, items) ->
         exists data,
           dict_get name attached = Some (VTuple [hosts; VDict None data])
           /\ forall key,
                dict_get key data
                = match dict_get name group_data with
                  | Some collected =>
                      match dict_get key collected with
                      | Some v => Some v
                      | None => dict_get key items
                      end
                  | None => dict_get key items
                  end.
Proof.
  intros Hcollect Hnd Hunshared.
  apply collect_group_data_distinct in Hcollect as [Hgd Hdata].
  eexists. split; [by apply attach_group_data_unshared|]. split.
  - apply (dict_keys_map_values
             (fun g => merged_group group_data (fst g) (snd g))).
  - intros name group hosts items Hin Hgroup.
    rewrite (dict_get_map_values (merged_group group_data) name group)
      by done.
    unfold merged_group. rewrite Hgroup. eexists. split; [done|].
    intros key.
    destruct (dict_get name group_data) as [collected|] eqn:Hname; simpl.
    + apply dict_get_update. apply dict_get_Some_elem in Hname.
      by apply (Hdata name).
    + done.
Qed.

Lemma X10_witness :
  exists attached,
    outcome (attach_group_data own_data_groups
               [("web", [("port", VInt 8080); ("ssh_user", VStr "deploy")])])
    = Ok (attached, [])
    /\ dict_keys attached = ["web"; "db"]
    /\ forall name group hosts items,
         (name, group) ∈ own_data_groups ->
         unshared_group group = Some (hosts, items) ->
         exists data,
           dict_get name attached = Some (VTuple [hosts; VDict None data])
           /\ forall key,
                dict_get key data
                = match dict_get name
                          [("web", [("port", VInt 8080);
                                    ("ssh_user", VStr "deploy")])] with
                  | Some collected =>
                      match dict_get key collected with
                      | Some v => Some v
                      | None => dict_get key items
                      end
                  | None => dict_get key items
                  end.
Proof.
  refine (X10_unshared_groups_take_their_data layered_world Inventory_empty
            layered_folders own_data_groups _ eq_refl _ _).
  - apply (bool_decide_unpack _). vm_compute. exact I.
  - intros name group Hin. unfold own_data_groups in Hin.
    repeat (apply elem_of_cons in Hin as [[= -> ->]|Hin]; [by eexists|]).
    by apply elem_of_nil in Hin.
Defined.

(** ** The groups handed to the inventory *)

Lemma dict_get_Some_key {V} (k : string) (v : V) (d : list (string * V)) :
  dict_get k d = Some v -> k ∈ dict_keys d.
Proof.
  intros H. apply dict_get_Some_elem in H.
  apply list_elem_of_fmap. by exists (k, v).
Qed.

Lemma dict_set_elem_NoDup {V} (k k' : string) (v v' : V)
    (d : list (string * V)) :
  NoDup (dict_keys d) ->
  (k, v) ∈ dict_set k' v' d ->
  (k, v) = (k', v') \/ ((k, v) ∈ d /\ k ≠ k').
Proof.
  induction d as [|[k0 v0] d IH]; simpl; intros Hnd.
  - rewrite list_elem_of_singleton. tauto.
  - apply NoDup_cons in Hnd as [Hk0 Hnd].
    destruct (String.eqb_spec k' k0) as [->|Hne]; rewrite !elem_of_cons.
    + intros [?|Hin]; [tauto|]. right. split; [tauto|]. intros ->.
      apply Hk0. apply list_elem_of_fmap. by exists (k0, v).
    + intros [[= -> ->]|Hin]; [right; split; [tauto|congruence]|].
      destruct (IH Hnd Hin) as [?|[? ?]]; tauto.
Qed.

Lemma dict_remove_elem {V} (k k' : string) (v : V) (d : list (string * V)) :
  (k, v) ∈ dict_remove k' d -> (k, v) ∈ d.
Proof.
  induction d as [|[k0 v0] d IH]; simpl; [done|].
  destruct (String.eqb_spec k' k0); rewrite !elem_of_cons; tauto.
Qed.

Lemma is_pair_dict_object_store (i : nat) (new : dict) (v : value) :
  is_pair (dict_object_store i new v) = is_pair v.
Proof.
  destruct v as [| | | |[|a [|b [|c xs]]]|[j|] items|]; try done.
  simpl. by destruct (Nat.eqb i j).
Qed.

(** One turn of the loop of lines 325-335 keeps the names of the groups and
    leaves a pair under the name it handles; the other groups keep their
    shape. *)
Lemma attach_group_data_step_shape (groups groups' : dict)
    (group_data group_data' : list (string * dict)) (name : string) :
  NoDup (dict_keys groups) ->
  outcome (attach_group_data_step (groups, group_data) name)
    = Ok (groups', group_data') ->
  dict_keys groups' = dict_keys groups
  /\ forall n v, (n, v) ∈ groups' ->
       (n = name /\ is_pair v = true)
       \/ (n ≠ name /\ exists v0, (n, v0) ∈ groups /\ is_pair v = is_pair v0).
Proof.
  intros Hnd. unfold attach_group_data_step.
  destruct (dict_get name groups) as [group|] eqn:Hget.
  2:{ intros [= <- <-]. split; [done|]. intros n v Hin. right.
      apply dict_get_None in Hget. split; [|by exists v].
      intros ->. apply Hget. apply list_elem_of_fmap. by exists (name, v). }
  apply dict_get_Some_key in Hget. intros H.
  apply outcome_bind_inv in H as ([hosts data] & _ & H).
  apply outcome_bind_inv in H as ([[[hosts' data'] stored] gd] & Hmerge & H).
  injection H as <- <-.
  assert (dict_keys stored = dict_keys groups
          /\ forall n v, (n, v) ∈ stored ->
               exists v0, (n, v0) ∈ groups /\ is_pair v = is_pair v0)
    as [Hkeys Hstored].
  { destruct (dict_get name group_data) as [collected|].
    2:{ injection Hmerge as <- <- <- <-. split; [done|]. by eauto. }
    destruct data as [| | | | |[i|] items|]; try discriminate.
    - injection Hmerge as <- <- <- <-. split.
      + apply (dict_keys_map_values
                 (fun g => dict_object_store i (dict_update items collected)
                             (snd g))).
      + intros n v Hin. apply list_elem_of_fmap in Hin as ([n0 v0] & Heq & Hin).
        injection Heq as -> ->. exists v0. split; [done|].
        apply is_pair_dict_object_store.
    - injection Hmerge as <- <- <- <-. split; [done|]. by eauto. }
  split.
  - rewrite dict_keys_set, Hkeys. by rewrite decide_True.
  - intros n v Hin.
    apply dict_set_elem_NoDup in Hin as [[= -> ->]|[Hin Hne]];
      [by left| |by rewrite Hkeys].
    right. split; [done|]. by apply Hstored.
Qed.

Lemma attach_group_data_loop_shape (names : list string) (groups groups' : dict)
    (group_data group_data' : list (string * dict)) :
  NoDup (dict_keys groups) ->
  outcome (for_each names (groups, group_data) attach_group_data_step)
    = Ok (groups', group_data') ->
  dict_keys groups' = dict_keys groups
  /\ forall n v, (n, v) ∈ groups' ->
       (n ∈ names /\ is_pair v = true)
       \/ ((n ∉ names)
           /\ exists v0, (n, v0) ∈ groups /\ is_pair v = is_pair v0).
Proof.
  revert groups group_data.
  induction names as [|name names IH]; intros groups group_data Hnd.
  - intros [= <- <-]. split; [done|]. intros n v Hin. right.
    split; [apply not_elem_of_nil|by exists v].
  - rewrite for_each_cons. intros H.
    apply outcome_bind_inv in H as ([groups1 gd1] & Hstep & H).
    apply attach_group_data_step_shape in Hstep as [Hkeys1 Hstep]; [|done].
    apply IH in H as [Hkeys Hrest]; [|by rewrite Hkeys1].
    split; [congruence|]. intros n v Hin.
    destruct (Hrest n v Hin) as [[Hn Hv]|[Hn (v1 & Hin1 & Hv1)]].
    + left. split; [by right|done].
    + destruct (Hstep n v1 Hin1) as [[-> Hpair]|[Hne (v0 & Hin0 & Hv0)]].
      * left. split; [left|congruence].
      * right. split; [|exists v0; split; [done|congruence]].
        rewrite not_elem_of_cons. tauto.
Qed.

(** After the loop every group is a pair, under the names it had. *)
Lemma attach_group_data_pairs (groups groups' : dict)
    (group_data group_data' : list (string * dict)) :
  NoDup (dict_keys groups) ->
  outcome (attach_group_data groups group_data) = Ok (groups', group_data') ->
  dict_keys groups' = dict_keys groups
  /\ forall n v, (n, v) ∈ groups' -> is_pair v = true.
Proof.
  intros Hnd H. unfold attach_group_data in H.
  apply attach_group_data_loop_shape in H as [Hkeys Hshape]; [|done].
  split; [done|]. intros n v Hin.
  destruct (Hshape n v Hin) as [[_ Hv]|[Hn (v0 & Hin0 & _)]]; [done|].
  destruct Hn. apply list_elem_of_fmap. by exists (n, v0).
Qed.

Lemma add_leftover_groups_pairs (groups : dict)
    (group_data : list (string * dict)) :
  NoDup (dict_keys groups) ->
  (forall n v, (n, v) ∈ groups -> is_pair v = true) ->
  NoDup (dict_keys (add_leftover_groups groups group_data))
  /\ forall n v, (n, v) ∈ add_leftover_groups groups group_data ->
       is_pair v = true.
Proof.
  unfold add_leftover_groups. revert groups.
  induction group_data as [|[name data] gd IH]; intros groups Hnd Hpairs;
    [done|].
  simpl. apply IH; [by apply dict_set_NoDup|].
  intros n v Hin. apply dict_set_elem in Hin as [[= -> ->]|Hin]; [done|].
  by apply (Hpairs n).
Qed.

Lemma initial_groups_NoDup (w : world) (inventory : string) (groups : dict)
    (file_groupname : option string) :
  outcome (initial_groups w inventory) = Ok (groups, file_groupname) ->
  NoDup (dict_keys groups).
Proof.
  unfold initial_groups. destruct (path_exists w inventory); cbn [negb].
  - intros H. apply outcome_bind_inv in H as (loaded & Hloaded & H).
    injection H as <- <-. unfold _get_groups_from_filename in Hloaded.
    apply outcome_bind_inv in Hloaded as (attrs & _ & Hloaded).
    by apply dict_comprehension_kept in Hloaded as [Hnd _].
  - intros [= <- <-]. apply NoDup_singleton.
Qed.

Lemma resolve_all_group_NoDup (loaded groups : dict)
    (all_hosts all_data : value) :
  NoDup (dict_keys loaded) ->
  outcome (resolve_all_group loaded) = Ok (all_hosts, all_data, groups) ->
  NoDup (dict_keys groups).
Proof.
  intros Hnd. unfold resolve_all_group. intros H.
  apply outcome_bind_inv in H as ([[h d] g] & Hfirst & H).
  injection H as <- <- <-. apply dict_set_NoDup.
  destruct (dict_get "all" loaded) as [given|].
  - apply outcome_bind_inv in Hfirst as ([h' d'] & _ & Hfirst).
    injection Hfirst as <- <- <-. by apply dict_remove_NoDup.
  - apply outcome_bind_inv in Hfirst as (hosts & _ & Hfirst).
    by injection Hfirst as <- <- <-.
Qed.

Lemma apply_file_groupname_NoDup (file_groupname : option string)
    (all_hosts : value) (groups : dict) :
  NoDup (dict_keys groups) ->
  NoDup (dict_keys (apply_file_groupname file_groupname all_hosts groups)).
Proof.
  intros Hnd. unfold apply_file_groupname.
  destruct file_groupname as [name|]; [|done].
  destruct (negb (String.eqb name "") && negb (dict_mem name groups));
    [by apply dict_set_NoDup|done].
Qed.

(** X11: whatever make_inventory_from_files returns, it hands to the
    inventory the override data as given, a pair for the [all] group, and
    named groups with distinct names, none of them [all] or
    [override_data], each a pair (hosts, data). *)
Theorem X11_inventory_of_pairs (w : world) (inventory : string)
    (override_data : option dict) (cwd : option string)
    (dirs : option (list string)) (result : Inventory) :
  outcome (make_inventory_from_files w inventory override_data cwd dirs)
    = Ok result ->
  override_data_of result = override_data
  /\ is_pair (names_data result) = true
  /\ NoDup (dict_keys (groups_of result))
  /\ ("all" ∉ dict_keys (groups_of result))
  /\ ("override_data" ∉ dict_keys (groups_of result))
  /\ forall name group, (name, group) ∈ groups_of result ->
       is_pair group = true.
Proof.
  unfold make_inventory_from_files. intros H.
  apply outcome_bind_inv in H as ([groups0 file_groupname] & Hinit & H).
  apply outcome_bind_inv in H as ([[all_hosts all_data] groups1] & Hall & H).
  apply outcome_bind_inv in H as (_ & _ & H).
  apply outcome_bind_inv in H as (group_data & _ & H).
  apply outcome_bind_inv in H as ([groups2 leftover] & Hattach & H).
  apply outcome_bind_inv in H as ([all groups3] & Hpop & H).
  apply initial_groups_NoDup in Hinit.
  apply resolve_all_group_NoDup in Hall; [|done].
  apply (apply_file_groupname_NoDup file_groupname all_hosts) in Hall.
  apply attach_group_data_pairs in Hattach as [Hkeys Hpairs]; [|done].
  rewrite <- Hkeys in Hall.
  destruct (add_leftover_groups_pairs groups2 leftover Hall Hpairs)
    as [Hnd Hshape].
  unfold dict_pop in Hpop.
  destruct (dict_get "all" (add_leftover_groups groups2 leftover))
    as [found|] eqn:Hget; [|discriminate].
  injection Hpop as <- <-.
  unfold Inventory_call in H.
  destruct (dict_mem "override_data" _) eqn:Hkeyword; [discriminate|].
  injection H as <-. cbn [override_data_of names_data groups_of].
  destruct (dict_remove_NoDup "all" _ Hnd) as [Hnd' Hnotall].
  apply dict_get_Some_elem in Hget. apply dict_mem_false in Hkeyword.
  repeat split; [by apply (Hshape "all")|done..|].
  intros name group Hin. apply dict_remove_elem in Hin.
  by apply (Hshape name).
Qed.

Lemma X11_witness :
  override_data_of shared_data_result = None
  /\ is_pair (names_data shared_data_result) = true
  /\ NoDup (dict_keys (groups_of shared_data_result))
  /\ ("all" ∉ dict_keys (groups_of shared_data_result))
  /\ ("override_data" ∉ dict_keys (groups_of shared_data_result))
  /\ forall name group, (name, group) ∈ groups_of shared_data_result ->
       is_pair group = true.
Proof.
  exact (X11_inventory_of_pairs shared_data_world "/srv/inventory.py"
           None (Some "/srv") None shared_data_result eq_refl).
Defined.

(** ** The events of make_inventory_from_func *)

Lemma tuple_first_silent (P : event -> Prop) xs :
  emits_only P (tuple_first xs).
Proof. unfold tuple_first. emits_only_auto. Qed.

Lemma py_iter_silent (P : event -> Prop) v : emits_only P (py_iter v).
Proof. unfold py_iter. emits_only_auto. Qed.

Lemma unpack2_silent (P : event -> Prop) xs : emits_only P (unpack2 xs).
Proof. unfold unpack2. emits_only_auto. Qed.

Lemma get_any_tuple_first_silent (P : event -> Prop) v :
  emits_only P (_get_any_tuple_first v).
Proof.
  unfold _get_any_tuple_first. destruct v; try apply emits_only_ret.
  apply tuple_first_silent.
Qed.

Lemma Inventory_call_silent (P : event -> Prop) names override groups :
  emits_only P (Inventory_call names override groups).
Proof. unfold Inventory_call. emits_only_auto. Qed.

Lemma emits_nothing {A} (m : M A) : emits_only no_event m -> events m = [].
Proof.
  unfold emits_only. destruct (events m) as [|ev evs]; [done|].
  intros H. apply Forall_cons in H as [[] _].
Qed.

(** X12: whatever the resolver function does, make_inventory_from_func
    logs its warning that the feature is in alpha, once and first, and
    produces no other event: it executes no file, imports nothing, looks
    up no name and logs nothing else, also when it fails. *)
Theorem X12_function_path_logs_once (w : world) (f : py_function)
    (override_data : option dict) :
  events (make_inventory_from_func w f override_data)
  = [LogWarning [FText "Loading inventory via import function is in alpha!"]].
Proof.
  unfold make_inventory_from_func.
  rewrite events_bind, outcome_logger_warning.
  cbn [events logger_warning emit fst app]. f_equal.
  apply emits_nothing. unfold check_group, check_hosts.
  repeat first [apply unpack2_silent | apply get_any_tuple_first_silent
               | apply py_iter_silent | apply Inventory_call_silent
               | emits_only_step].
Qed.

(** ** A list of hosts, and a single host *)

Lemma split_nonempty (sep : ascii) (s : string) : Str.split sep s ≠ [].
Proof.
  destruct s as [|c s]; simpl; [done|].
  destruct (Ascii.eqb c sep); [done|]. by destruct (Str.split sep s).
Qed.

Lemma join_split (sep : ascii) (s : string) :
  Str.join sep (Str.split sep s) = s.
Proof.
  induction s as [|c s IH]; [done|]. cbn [Str.split].
  pose proof (split_nonempty sep s) as Hne.
  destruct (Ascii.eqb_spec c sep) as [->|Hc].
  - destruct (Str.split sep s) as [|f fs]; [done|].
    by rewrite <- IH.
  - destruct (Str.split sep s) as [|f fs]; [done|].
    rewrite <- IH. by destruct fs.
Qed.

Lemma split_fields_without_separator (sep : ascii) (s field : string) :
  field ∈ Str.split sep s ->
  Str.contains (String sep EmptyString) field = false.
Proof.
  revert field. induction s as [|c s IH]; intros field; cbn [Str.split].
  - rewrite list_elem_of_singleton. by intros ->.
  - destruct (Ascii.eqb c sep) eqn:Hc.
    + rewrite elem_of_cons. intros [->|Hin]; [done|by apply IH].
    + pose proof (split_nonempty sep s) as Hne.
      destruct (Str.split sep s) as [|f fs]; [done|].
      rewrite elem_of_cons. intros [->|Hin].
      * cbn [Str.contains Str.startswith].
        rewrite Ascii.eqb_sym, Hc. cbn [andb orb].
        apply IH. left.
      * apply IH. by right.
Qed.

Lemma split_without_separator (sep : ascii) (s : string) :
  Str.contains (String sep EmptyString) s = false -> Str.split sep s = [s].
Proof.
  induction s as [|c s IH]; [done|].
  cbn [Str.contains Str.startswith Str.split].
  rewrite (Ascii.eqb_sym sep c).
  destruct (Ascii.eqb c sep); [by destruct s|]. cbn [andb orb].
  intros H. by rewrite (IH H).
Qed.

(** X13: a descriptor that is no path, host list or connector, that names
    no importable function, and that resolves as a host name, is handled by
    make_inventory_from_files, and the [all] group of the inventory holds
    this one name. *)
Theorem X13_bare_hostname_single_host (w : world) (inventory : string)
    (override_data : option dict) (cwd : option string)
    (dirs : option (list string)) :
  is_path_or_host_list_or_connector w inventory override_data = false ->
  try_import_module_attribute w inventory = None ->
  resolves w inventory = true ->
  outcome (make_inventory w inventory override_data cwd dirs)
    = outcome (make_inventory_from_files w inventory override_data cwd dirs)
  /\ forall result,
       outcome (make_inventory w inventory override_data cwd dirs)
         = Ok result ->
       exists data,
         names_data result = VTuple [VList [VStr inventory]; data].
Proof.
  intros Hpath Himport Hresolves.
  assert (outcome (make_inventory w inventory override_data cwd dirs)
          = outcome (make_inventory_from_files w inventory override_data
                       cwd dirs)) as Heq.
  { destruct (resolves_to_host_spec w inventory) as [Hout _].
    rewrite Hresolves in Hout.
    unfold make_inventory, call_try_import. rewrite Hpath, Himport.
    cbn [negb]. rewrite !bind_assoc.
    rewrite outcome_bind, outcome_emit, bind_ret.
    rewrite bind_assoc, outcome_bind, Hout. by rewrite bind_ret. }
  split; [done|]. rewrite Heq. clear Heq. intros result Hresult.
  unfold is_path_or_host_list_or_connector in Hpath.
  apply orb_false_iff in Hpath as [Hpath _].
  apply orb_false_iff in Hpath as [Hpath _].
  apply orb_false_iff in Hpath as [Hexists Hcomma].
  revert Hresult. unfold make_inventory_from_files, initial_groups.
  rewrite Hexists. cbn [negb].
  rewrite (split_without_separator ","%char inventory Hcomma).
  rewrite outcome_bind, outcome_ret.
  rewrite outcome_bind, resolve_all_group_only_all by done.
  cbn [apply_file_groupname map]. intros H.
  apply outcome_bind_inv in H as (_ & _ & H).
  apply outcome_bind_inv in H as (group_data & Hcollect & H).
  apply collect_group_data_NoDup in Hcollect.
  destruct (dict_remove_NoDup "all" group_data Hcollect) as [Hnd Hall].
  rewrite outcome_bind, attach_group_data_all in H.
  rewrite add_leftover_groups_fresh in H; [|done|].
  2:{ intros k Hk. simpl. rewrite list_elem_of_singleton. intros ->. done. }
  apply outcome_bind_inv in H as ([all groups] & Hpop & H).
  unfold dict_pop in Hpop.
  cbn [app dict_get String.eqb Ascii.eqb Bool.eqb] in Hpop.
  injection Hpop as <- <-. unfold Inventory_call in H.
  destruct (dict_mem "override_data" _); [discriminate|].
  injection H as <-. by eexists.
Qed.

Lemma X13_witness :
  outcome (make_inventory dns_world "db.internal" None None None)
    = outcome (make_inventory_from_files dns_world "db.internal"
                 None None None)
  /\ exists data,
       names_data
         (Inventory_init (VTuple [VList [VStr "db.internal"]; VDict None []])
            None [])
       = VTuple [VList [VStr "db.internal"]; data].
Proof.
  destruct (X13_bare_hostname_single_host dns_world "db.internal"
              None None None eq_refl eq_refl eq_refl) as [Hfiles Hall].
  split; [exact Hfiles|]. apply Hall. reflexivity.
Defined.

(** X14: for a descriptor that names no existing path, the hosts of the
    initial [all] group are never an empty list, none of them contains a
    comma, and joined by commas they give back the descriptor; no group
    name is derived from a file. *)
Theorem X14_host_list_round_trip (w : world) (inventory : string) :
  path_exists w inventory = false ->
  exists hosts,
    outcome (initial_groups w inventory)
      = Ok ([("all", VList (map VStr hosts))], None)
    /\ hosts ≠ []
    /\ Str.join ","%char hosts = inventory
    /\ forall host, host ∈ hosts -> Str.contains "," host = false.
Proof.
  intros Hexists. exists (Str.split ","%char inventory).
  unfold initial_groups. rewrite Hexists. split; [done|].
  split; [apply split_nonempty|]. split; [apply join_split|].
  intros host. apply split_fields_without_separator.
Qed.

Lemma X14_witness :
  exists hosts,
    outcome (initial_groups host_list_world "h1,h2,h1")
      = Ok ([("all", VList (map VStr hosts))], None)
    /\ hosts ≠ []
    /\ Str.join ","%char hosts = "h1,h2,h1"
    /\ forall host, host ∈ hosts -> Str.contains "," host = false.
Proof.
  exact (X14_host_list_round_trip host_list_world "h1,h2,h1" eq_refl).
Defined.

(** ** When the synthesis of the [all] group fails *)

Lemma for_each_ok_iff {A S} (q : A -> bool) (body : S -> A -> M S)
    (xs : list A) (s : S) :
  (forall s x, q x = true -> exists s', outcome (body s x) = Ok s') ->
  (forall s x, q x = false -> exists e, outcome (body s x) = Raised e) ->
  (exists r, outcome (for_each xs s body) = Ok r) <-> forallb q xs = true.
Proof.
  intros Hok Hraise. revert s. induction xs as [|x xs IH]; intros s.
  - split; [done|]. intros _. by eexists.
  - rewrite for_each_cons, outcome_bind. cbn [forallb].
    destruct (q x) eqn:Hq.
    + destruct (Hok s x Hq) as [s' ->]. cbn [andb]. apply IH.
    + destruct (Hraise s x Hq) as [e ->]. cbn [andb].
      split; [by intros [r ?]|done].
Qed.

Lemma for_each_raised {A S} (P : exn -> Prop) (body : S -> A -> M S)
    (xs : list A) (s : S) (e : exn) :
  (forall s x e, outcome (body s x) = Raised e -> P e) ->
  outcome (for_each xs s body) = Raised e ->
  P e.
Proof.
  intros Hbody. revert s. induction xs as [|x xs IH]; intros s; [done|].
  rewrite for_each_cons, outcome_bind.
  destruct (outcome (body s x)) as [s'|e'] eqn:Hx; [apply IH|].
  intros [= <-]. by apply (Hbody s x).
Qed.

Lemma get_any_tuple_first_outcome (item : value) :
  outcome (_get_any_tuple_first item)
  = match item with
    | VTuple [] => Raised (Exn IndexError [FText "tuple index out of range"])
    | VTuple (first :: _) => Ok first
    | _ => Ok item
    end.
Proof. by destruct item as [| | | |[|? ?]| |]. Qed.

Lemma synthesize_all_hosts_loops (groups : dict) :
  synthesize_all_hosts groups = for_each groups [] add_group_hosts.
Proof. reflexivity. Qed.

Lemma add_host_identity_outcome (seen : list value) (host : value) :
  (host_reducible host = true ->
   exists seen', outcome (add_host_identity seen host) = Ok seen')
  /\ (host_reducible host = false ->
      outcome (add_host_identity seen host)
      = Raised (Exn IndexError [FText "tuple index out of range"])).
Proof.
  unfold add_host_identity.
  rewrite outcome_bind, get_any_tuple_first_outcome.
  destruct host as [| | | |[|? ?]| |]; split; try discriminate;
    try (intros _; by eexists); done.
Qed.

Lemma add_hosts_ok_iff (items seen : list value) :
  (exists r, outcome (for_each items seen add_host_identity) = Ok r)
  <-> forallb host_reducible items = true.
Proof.
  apply for_each_ok_iff.
  - intros s host. apply add_host_identity_outcome.
  - intros s host Hhost. eexists.
    by apply add_host_identity_outcome.
Qed.

Lemma add_group_hosts_outcome (seen : list value) (group : string * value) :
  outcome (add_group_hosts seen group)
  = match group_host_items (snd group) with
    | Some items => outcome (for_each items seen add_host_identity)
    | None =>
        match snd group with
        | VTuple [] =>
            Raised (Exn IndexError [FText "tuple index out of range"])
        | VTuple (first :: _) =>
            Raised (Exn TypeError
                      [FValue first; FText " object is not iterable"])
        | other =>
            Raised (Exn TypeError
                      [FValue other; FText " object is not iterable"])
        end
    end.
Proof.
  unfold add_group_hosts. destruct group as [name group]. cbn [snd].
  rewrite outcome_bind, get_any_tuple_first_outcome.
  destruct group as [| |s|xs|[|first rest]|o d|]; try done;
    try (by rewrite outcome_bind).
  cbn [group_host_items]. rewrite outcome_bind, py_iter_outcome.
  by destruct (iterable_items first).
Qed.

(** X15: without an explicit [all] group, the host list of [all] can be
    built exactly when every group can be gone through (it is not an empty
    tuple, and it or its first component can be iterated) and none of its
    hosts is an empty tuple; otherwise the synthesis raises [IndexError] or
    [TypeError]. *)
Theorem X15_synthesis_fails_on_shapes (groups : dict) :
  ((exists all_hosts, outcome (synthesize_all_hosts groups) = Ok all_hosts)
   <-> forallb (fun group => synthesizable (snd group)) groups = true)
  /\ forall e,
       outcome (synthesize_all_hosts groups) = Raised e ->
       index_or_type_error e.
Proof.
  rewrite synthesize_all_hosts_loops. split.
  - apply for_each_ok_iff.
    + intros seen group Hgroup. rewrite add_group_hosts_outcome.
      unfold synthesizable in Hgroup.
      destruct (group_host_items (snd group)) as [items|]; [|discriminate].
      by apply add_hosts_ok_iff.
    + intros seen group Hgroup. rewrite add_group_hosts_outcome.
      unfold synthesizable in Hgroup.
      destruct (group_host_items (snd group)) as [items|].
      * destruct (outcome (for_each items seen add_host_identity))
          as [r|e] eqn:Hloop; [|by eexists].
        assert (forallb host_reducible items = true); [|congruence].
        apply (add_hosts_ok_iff items seen). by eexists.
      * destruct (snd group) as [| | | |[|? ?]| |]; by eexists.
  - intros e. apply for_each_raised. intros seen group e'.
    rewrite add_group_hosts_outcome.
    destruct (group_host_items (snd group)) as [items|].
    + apply for_each_raised. intros s host e''.
      destruct (host_reducible host) eqn:Hhost.
      * destruct (proj1 (add_host_identity_outcome s host) Hhost)
          as [s' ->]. discriminate.
      * rewrite (proj2 (add_host_identity_outcome s host) Hhost).
        intros [= <-]. by left.
    + destruct (snd group) as [| | | |[|? ?]| |]; intros [= <-];
        (by left) || (by right).
Qed.

Lemma X15_witness :
  index_or_type_error
    (Exn IndexError [FText "tuple index out of range"]).
Proof.
  exact (proj2 (X15_synthesis_fails_on_shapes
                  [("web", VList [VStr "web1"; VTuple []])])
           _ eq_refl).
Defined.
